(** * A shallow embedding of [server.py]: an in-memory users REST service

    The development follows the source top-down: Python values and
    exceptions, [UserSchema], [User] and [UserRef], [UserController] and
    finally [HTTPHandler].  The controller is modelled sequentially: the
    lock of the source only brackets critical sections and is the identity
    on a single thread of control. *)

From Stdlib Require Import ZArith String Ascii List Lia.
From stdpp Require Import base option list gmap strings pretty sorting.

Set Warnings "-register-all".

Open Scope Z_scope.
Open Scope string_scope.

(** ** Python values, as [json.loads] delivers them *)

Module Py.

(** A decoded JSON document.  A float keeps its literal; nothing in the
    program looks inside one. Objects keep their entries as an
    association list in iteration order. *)
Inductive value : Type :=
| VNone
| VBool (b : bool)
| VInt (z : Z)
| VFloat (literal : string)
| VStr (s : string)
| VList (l : list value)
| VDict (d : list (string * value)).

Definition pydict : Type := list (string * value).

(** The classes of the values above. [VInt] covers both [int] and [long]:
    CPython 2 on a 64-bit build gives [long] outside the machine range. *)
Inductive pytype : Type :=
| TNoneType | TBool | TInt | TLong | TFloat | TUnicode | TList | TDict.

Definition sys_maxint : Z := 2 ^ 63 - 1.

Definition type_of (v : value) : pytype :=
  match v with
  | VNone => TNoneType
  | VBool _ => TBool
  | VInt z =>
      if bool_decide (- sys_maxint - 1 <= z <= sys_maxint) then TInt else TLong
  | VFloat _ => TFloat
  | VStr _ => TUnicode
  | VList _ => TList
  | VDict _ => TDict
  end.

(** The two classes the schema tests with [isinstance]. [bool] is a
    subclass of [int]; [basestring] is the base of [str] and [unicode]. *)
Inductive pyclass : Type := int | basestring.

Definition isinstance (v : value) (c : pyclass) : bool :=
  match c, type_of v with
  | int, (TInt | TBool) => true
  | basestring, TUnicode => true
  | _, _ => false
  end.

(** Structural equality, which is what [==] and hashing give on the text
    and [None] values that reach the e-mail index. *)
Fixpoint value_eqb (a b : value) {struct a} : bool :=
  match a, b with
  | VNone, VNone => true
  | VBool x, VBool y => bool_decide (x = y)
  | VInt x, VInt y => bool_decide (x = y)
  | VFloat x, VFloat y => bool_decide (x = y)
  | VStr x, VStr y => bool_decide (x = y)
  | VList x, VList y =>
      (fix go (l1 l2 : list value) : bool :=
         match l1, l2 with
         | [], [] => true
         | u :: l1', w :: l2' => value_eqb u w && go l1' l2'
         | _, _ => false
         end) x y
  | VDict x, VDict y =>
      (fix go (l1 l2 : list (string * value)) : bool :=
         match l1, l2 with
         | [], [] => true
         | (k1, u) :: l1', (k2, w) :: l2' =>
             bool_decide (k1 = k2) && value_eqb u w && go l1' l2'
         | _, _ => false
         end) x y
  | _, _ => false
  end.

(** [d.get(k)] on a dictionary. *)
Fixpoint dict_get (k : string) (d : pydict) : option value :=
  match d with
  | [] => None
  | (k', v) :: d' => if bool_decide (k' = k) then Some v else dict_get k d'
  end.

Definition keys (d : pydict) : list string := d.*1.

End Py.

Import Py.

(** ** Exceptions *)

(** Built-in exceptions the program can meet. Their message text belongs
    to the interpreter and is kept symbolic: [StrOf e] stands for
    [str(e)]. *)
Inductive builtin_exc : Type :=
| KeyError | TypeError | ValueError | AttributeError | UnicodeEncodeError.

Inductive message : Type :=
| Text (s : string)
| StrOf (e : builtin_exc).

(** [HTTPError(code, reason)] of the source, next to the built-in ones. *)
Inductive exn : Type :=
| HTTPError (code : Z) (reason : message)
| Builtin (e : builtin_exc).

Definition str (e : exn) : message :=
  match e with
  | HTTPError _ reason => reason
  | Builtin b => StrOf b
  end.

(** A computation that returns or raises. *)
Inductive result (A : Type) : Type :=
| Ok (a : A)
| Raise (e : exn).
Arguments Ok {A} a.
Arguments Raise {A} e.

#[global] Instance result_ret : MRet result := fun A a => Ok a.
#[global] Instance result_bind : MBind result := fun A B f r =>
  match r with
  | Ok a => f a
  | Raise e => Raise e
  end.

(** The status an exception ends up with in [process_request]. *)
Definition status_of (e : exn) : Z :=
  match e with
  | HTTPError code _ => code
  | Builtin _ => 500
  end.

(** ** Text helpers: [int(...)], [str.split], [startswith] *)

Module Text.

Definition is_space (c : ascii) : bool :=
  let n := nat_of_ascii c in
  bool_decide (n = 32%nat) || (bool_decide (9 <= n)%nat && bool_decide (n <= 13)%nat).

Definition is_digit (c : ascii) : bool :=
  let n := nat_of_ascii c in
  bool_decide (48 <= n)%nat && bool_decide (n <= 57)%nat.

Definition digit (c : ascii) : Z := Z.of_nat (nat_of_ascii c) - 48.

Definition is_ascii_char (c : ascii) : bool :=
  bool_decide (nat_of_ascii c < 128)%nat.

Fixpoint is_ascii (s : string) : bool :=
  match s with
  | EmptyString => true
  | String c s' => is_ascii_char c && is_ascii s'
  end.

Fixpoint all_space (s : string) : bool :=
  match s with
  | EmptyString => true
  | String c s' => is_space c && all_space s'
  end.

Fixpoint lstrip (s : string) : string :=
  match s with
  | EmptyString => EmptyString
  | String c s' => if is_space c then lstrip s' else s
  end.

(** Decimal digits, then nothing but white space. *)
Fixpoint digits (acc : Z) (seen : bool) (s : string) : option Z :=
  match s with
  | EmptyString => if seen then Some acc else None
  | String c s' =>
      if is_digit c then digits (10 * acc + digit c) true s'
      else if seen && all_space s then Some acc else None
  end.

(** [int(s)] on a string, base ten: surrounding white space, an optional
    sign, at least one digit. [None] stands for [ValueError]. *)
Definition int_of_str (s : string) : option Z :=
  match lstrip s with
  | String "-" s' => Z.opp <$> digits 0 false s'
  | String "+" s' => digits 0 false s'
  | s' => digits 0 false s'
  end.

(** [s.split(sep, maxsplit)]. *)
Fixpoint split (sep : ascii) (maxsplit : nat) (s : string) : list string :=
  match s with
  | EmptyString => [EmptyString]
  | String c s' =>
      match maxsplit with
      | O => [s]
      | S m =>
          if bool_decide (c = sep) then EmptyString :: split sep m s'
          else match split sep maxsplit s' with
               | h :: t => String c h :: t
               | [] => [String c EmptyString]
               end
      end
  end.

Definition startswith (s pre : string) : bool := String.prefix pre s.

(** [f.read(n)]: at most [n] bytes, everything for a negative [n]. *)
Definition read (n : Z) (s : string) : string :=
  if bool_decide (n < 0) then s else String.substring 0 (Z.to_nat n) s.

End Text.

(** ** [UserSchema] *)

Module UserSchema.

(** One entry of the [schema] table: the class tested with [isinstance]
    and the predicate applied to the value afterwards. *)
Definition traits : Type := pyclass * (value -> bool).

(** [0 < x < 100] on an instance of [int]; [True] and [False] compare as
    1 and 0. The predicate is only reached after the [isinstance] test. *)
Definition age_pred (x : value) : bool :=
  match x with
  | VInt z => bool_decide (0 < z) && bool_decide (z < 100)
  | VBool b => bool_decide (0 < Z.b2z b) && bool_decide (Z.b2z b < 100)
  | _ => false
  end.

(** [lambda x: x] on an instance of [basestring], read as a truth value:
    a text is true unless it is empty. Like the predicate of [age] it is
    only reached after the [isinstance] test. *)
Definition text_pred (x : value) : bool :=
  match x with
  | VStr s => negb (bool_decide (s = ""))
  | _ => false
  end.

(** [x in ('male', 'female')]. *)
Definition sex_pred (x : value) : bool :=
  value_eqb x (VStr "male") || value_eqb x (VStr "female").

Definition schema (name : string) : option traits :=
  if bool_decide (name = "age") then Some (int, age_pred)
  else if bool_decide (name = "name") then Some (basestring, text_pred)
  else if bool_decide (name = "email") then Some (basestring, text_pred)
  else if bool_decide (name = "sex") then Some (basestring, sex_pred)
  else None.

Definition repr_class (c : pyclass) : string :=
  match c with
  | int => "<type 'int'>"
  | basestring => "<type 'basestring'>"
  end.

(** [check_value]. A field name arrives as [unicode] from the JSON
    decoder, and ['unknown value {}'.format(name)] formats it into a byte
    string: that step encodes the name as ASCII and raises
    [UnicodeEncodeError] for a name outside it. The other two messages
    format names of the table only. *)
Definition check_value (name : string) (v : value) : result unit :=
  match schema name with
  | None =>
      if Text.is_ascii name
      then Raise (HTTPError 400 (Text ("unknown value " ++ name)))
      else Raise (Builtin UnicodeEncodeError)
  | Some (cls, pred) =>
      if negb (isinstance v cls)
      then Raise (HTTPError 400
             (Text (name ++ " does has wrong type, expected " ++ repr_class cls)))
      else if negb (pred v)
      then Raise (HTTPError 400 (Text (name ++ " does has wrong value")))
      else Ok tt
  end.

(** The loop of [validate] over [d.items()]. *)
Fixpoint validate_items (d : pydict) : result unit :=
  match d with
  | [] => Ok tt
  | (k, v) :: d' => _ ← check_value k v; validate_items d'
  end.

(** [validate(d)]: only a dictionary has [items]. *)
Definition validate (d : value) : result unit :=
  match d with
  | VDict items => validate_items items
  | _ => Raise (Builtin AttributeError)
  end.

End UserSchema.

(** ** [User] and [UserRef] *)

Record User : Type := mkUser {
  id : Z;
  name : value;
  email : value;
  age : value;
  sex : value
}.

Module UserM.

(** The two statements of [create] that build the user: [data] receives
    the entry [id_], and [User] is called with the entries of [data] as
    keyword arguments. The call binds exactly the four remaining
    parameters of [__init__], and is a [TypeError] when one is missing or
    an entry matches none. *)
Definition init (id_ : Z) (data : pydict) : result User :=
  let kw := filter (fun kv => kv.1 <> "id_") data in
  match dict_get "name" kw, dict_get "email" kw,
        dict_get "age" kw, dict_get "sex" kw with
  | Some n, Some e, Some a, Some s =>
      if bool_decide (length kw = 4%nat) then Ok (mkUser id_ n e a s)
      else Raise (Builtin TypeError)
  | _, _, _, _ => Raise (Builtin TypeError)
  end.

(** [setattr(self, k, v)] for the names that pass validation; [update]
    is only called with a validated dictionary. *)
Definition setattr (u : User) (k : string) (v : value) : User :=
  if bool_decide (k = "name") then mkUser (id u) v (email u) (age u) (sex u)
  else if bool_decide (k = "email") then mkUser (id u) (name u) v (age u) (sex u)
  else if bool_decide (k = "age") then mkUser (id u) (name u) (email u) v (sex u)
  else if bool_decide (k = "sex") then mkUser (id u) (name u) (email u) (age u) v
  else u.

(** [User.update(d)]. *)
Definition update (u : User) (d : pydict) : User :=
  fold_left (fun u kv => setattr u kv.1 kv.2) d u.

(** [to_dict] over [__slots__]. *)
Definition to_dict (u : User) : value :=
  VDict [("id", VInt (id u)); ("name", name u); ("email", email u);
         ("age", age u); ("sex", sex u)].

End UserM.

Record UserRef : Type := mkUserRef {
  ref_id : Z;
  ref_name : value;
  ref_url : string
}.

Module UserRefM.

(** [UserRef(user)]. *)
Definition init (u : User) : UserRef :=
  mkUserRef (id u) (name u) ("/users/" ++ pretty (id u)).

Definition to_dict (r : UserRef) : value :=
  VDict [("id", VInt (ref_id r)); ("name", ref_name r); ("url", VStr (ref_url r))].

End UserRefM.

(** ** [UserController] *)

(** The controller's attributes. [emails] is the Python set, kept as a
    duplicate-free list. *)
Record state : Type := mkState {
  users : gmap Z User;
  last_id : Z;
  emails : list value
}.

(** A method of the controller: it may change the attributes and then
    returns or raises; what it changed before raising stays changed. *)
Definition ctl (A : Type) : Type := state -> state * result A.

#[global] Instance ctl_ret : MRet ctl := fun A a s => (s, Ok a).
#[global] Instance ctl_bind : MBind ctl := fun A B f c s =>
  match c s with
  | (s', Ok a) => f a s'
  | (s', Raise e) => (s', Raise e)
  end.

Definition raise {A} (e : exn) : ctl A := fun s => (s, Raise e).
Definition lift {A} (r : result A) : ctl A := fun s => (s, r).
Definition gets {A} (f : state -> A) : ctl A := fun s => (s, Ok (f s)).
Definition modify (f : state -> state) : ctl unit := fun s => (f s, Ok tt).

Module UserController.

(** [__init__]. *)
Definition init : state := mkState ∅ 1 [].

Definition set_users (f : gmap Z User -> gmap Z User) (s : state) : state :=
  mkState (f (users s)) (last_id s) (emails s).
Definition set_last_id (n : Z) (s : state) : state :=
  mkState (users s) n (emails s).
Definition set_emails (f : list value -> list value) (s : state) : state :=
  mkState (users s) (last_id s) (f (emails s)).

(** Operations of the set [emails]. *)
Definition mem (x : value) (l : list value) : bool := existsb (value_eqb x) l.
Definition add (x : value) (l : list value) : list value :=
  if mem x l then l else l ++ [x].
Definition discard (x : value) (l : list value) : list value :=
  filter (fun y => value_eqb x y = false) l.

Definition is_none (v : value) : bool :=
  match v with VNone => true | _ => false end.

(** [__user_id_from_str]. *)
Definition user_id_from_str (id_str : string) : result Z :=
  match Text.int_of_str id_str with
  | Some n => Ok n
  | None =>
      Raise (HTTPError 404 (Text ("users with id " ++ id_str ++ " is not found")))
  end.

(** [__next_id]. *)
Definition next_id : ctl Z :=
  id_ ← gets last_id;
  _ ← modify (set_last_id (id_ + 1));
  mret id_.

(** [__update_email]. [set.remove] raises [KeyError] on a missing
    element. *)
Definition update_email (new_email old_email : value) : ctl unit :=
  if value_eqb new_email old_email then mret tt
  else
    _ ← (if negb (is_none new_email) then
           es ← gets emails;
           if mem new_email es
           then raise (HTTPError 409 (Text "Email is not unique"))
           else modify (set_emails (add new_email))
         else mret tt);
    if negb (is_none old_email) then
      es ← gets emails;
      if mem old_email es
      then modify (set_emails (discard old_email))
      else raise (Builtin KeyError)
    else mret tt.

(** [create]. Past [validate] the data is a dictionary. *)
Definition create (data : value) : ctl UserRef :=
  _ ← lift (UserSchema.validate data);
  id_ ← next_id;
  user ← lift (match data with
               | VDict d => UserM.init id_ d
               | _ => Raise (Builtin TypeError)
               end);
  _ ← update_email (email user) VNone;
  _ ← modify (set_users (insert id_ user));
  mret (UserRefM.init user).

(** [get], together with the key under which the returned object sits in
    [users]: the caller holds the stored object itself, not a copy. *)
Definition get_at (id_str : string) : ctl (Z * User) :=
  id_ ← lift (user_id_from_str id_str);
  us ← gets users;
  match us !! id_ with
  | Some u => mret (id_, u)
  | None =>
      raise (HTTPError 404 (Text ("user(" ++ pretty id_ ++ ") is not found")))
  end.

(** [get]. *)
Definition get (id_str : string) : ctl User :=
  found ← get_at id_str;
  mret found.2.

(** [update]. [user.update(data)] changes the stored object in place;
    past [validate] the data is a dictionary. *)
Definition update (id_str : string) (data : value) : ctl User :=
  found ← get_at id_str;
  let '(id_, user) := found in
  _ ← lift (UserSchema.validate data);
  let d := match data with VDict d => d | _ => [] end in
  _ ← update_email (default VNone (dict_get "email" d)) (email user);
  let user' := UserM.update user d in
  _ ← modify (set_users (insert id_ user'));
  mret user'.

(** [delete]. [del] raises [KeyError] on a missing key. *)
Definition delete (id_str : string) : ctl unit :=
  user ← get id_str;
  _ ← update_email VNone (email user);
  us ← gets users;
  match us !! id user with
  | Some _ => modify (set_users (base.delete (id user)))
  | None => raise (Builtin KeyError)
  end.

(** [list]: the keys in ascending order, then the users under them. *)
Definition list : ctl (list User) :=
  us ← gets users;
  let users_ids := merge_sort Z.le (map_to_list us).*1 in
  mret (omap (fun id_ => us !! id_) users_ids).

End UserController.

(** ** [HTTPHandler] *)

Inductive method : Type := GET | POST | PUT | DELETE.

(** What the handler reads of a request: the method, the path, the two
    headers it looks up ([None] when the header is absent) and the bytes
    waiting in [rfile]. *)
Record request : Type := mkRequest {
  command : method;
  path : string;
  content_type : option string;
  content_length : option string;
  rfile : string
}.

(** What a controller method hands to [write_response]. *)
Inductive pyobj : Type :=
| ONone
| OUser (u : User)
| OUserRef (r : UserRef)
| OList (l : list User)
| OError (m : message).

(** The JSON document of a response body; [JError m] is the object
    with the single entry [error]. *)
Inductive json_body : Type :=
| JValue (v : value)
| JError (m : message).

Record response : Type := mkResponse {
  status : Z;
  body : option json_body
}.

Section HTTPHandler.

(** [json.loads] is the decoder of the standard library; [None] stands
    for its [ValueError]. *)
Variable json_loads : string -> option value.

(** [json.dumps(data, cls=JSONEncoder)], up to the text: serializable
    objects go through [to_dict]. *)
Definition dumps (data : pyobj) : json_body :=
  match data with
  | ONone => JValue VNone
  | OUser u => JValue (UserM.to_dict u)
  | OUserRef r => JValue (UserRefM.to_dict r)
  | OList l => JValue (VList (UserM.to_dict <$> l))
  | OError m => JError m
  end.

(** [write_response]. *)
Definition write_response (status : Z) (data : pyobj) : response :=
  match data with
  | ONone => mkResponse 204 None
  | _ => mkResponse status (Some (dumps data))
  end.

Definition not_found : response :=
  write_response 404 (OError (Text "not found")).

(** [process_request]. *)
Definition process_request (status : Z) (handler : ctl pyobj)
  : state -> state * response :=
  fun s =>
    match handler s with
    | (s', Ok data) => (s', write_response status data)
    | (s', Raise (HTTPError code reason)) =>
        (s', write_response code (OError reason))
    | (s', Raise (Builtin b)) =>
        (s', write_response 500 (OError (StrOf b)))
    end.

(** [get_data]. Indexing the headers with an absent name raises
    [KeyError]. *)
Definition get_data (r : request) : result value :=
  match content_type r with
  | None => Raise (Builtin KeyError)
  | Some ct =>
      if negb (Text.startswith ct "application/json")
      then Raise (HTTPError 415 (Text "expected application/json"))
      else
        match content_length r with
        | None => Raise (Builtin KeyError)
        | Some cl =>
            match Text.int_of_str cl with
            | None => Raise (Builtin ValueError)
            | Some number_of_bits =>
                match json_loads (Text.read number_of_bits (rfile r)) with
                | None => Raise (Builtin ValueError)
                | Some data => Ok data
                end
            end
        end
  end.

(** [call_with_body]. *)
Definition call_with_body (r : request) (handler : value -> ctl pyobj)
  : ctl pyobj :=
  match get_data r with
  | Raise e => raise (HTTPError 400 (str e))
  | Ok data => handler data
  end.

(** [get_user_id]; [None] is the method falling off its end. *)
Definition get_user_id (r : request) : option string :=
  if Text.startswith (path r) "/users/" then
    let parts := Text.split "/" 4 (path r) in
    if bool_decide (3%nat = length parts) then parts !! 2%nat else None
  else None.

Definition returning {A} (f : A -> pyobj) (c : ctl A) : ctl pyobj :=
  a ← c; mret (f a).

Definition do_GET (r : request) : state -> state * response :=
  if bool_decide (path r = "/users/") then
    process_request 200 (returning OList UserController.list)
  else
    match get_user_id r with
    | Some user_id =>
        process_request 200 (returning OUser (UserController.get user_id))
    | None => fun s => (s, not_found)
    end.

Definition do_POST (r : request) : state -> state * response :=
  if bool_decide (path r = "/users/") then
    process_request 201
      (call_with_body r (fun data => returning OUserRef (UserController.create data)))
  else fun s => (s, not_found).

Definition do_PUT (r : request) : state -> state * response :=
  match get_user_id r with
  | Some user_id =>
      process_request 200
        (call_with_body r
           (fun data => returning OUser (UserController.update user_id data)))
  | None => fun s => (s, not_found)
  end.

Definition do_DELETE (r : request) : state -> state * response :=
  match get_user_id r with
  | Some user_id =>
      process_request 200
        (returning (fun _ : unit => ONone) (UserController.delete user_id))
  | None => fun s => (s, not_found)
  end.

(** Dispatch on the request method, as the base class does. *)
Definition handle (r : request) : state -> state * response :=
  match command r with
  | GET => do_GET r
  | POST => do_POST r
  | PUT => do_PUT r
  | DELETE => do_DELETE r
  end.

End HTTPHandler.

(** The operations a client can run against the controller, and a run of
    a sequence of them from a given state. *)
Inductive op : Type :=
| Create (data : value)
| Update (id_str : string) (data : value)
| Delete (id_str : string)
| Get (id_str : string)
| List.

Definition step (o : op) (s : state) : state * result pyobj :=
  match o with
  | Create data => returning OUserRef (UserController.create data) s
  | Update i data => returning OUser (UserController.update i data) s
  | Delete i => returning (fun _ : unit => ONone) (UserController.delete i) s
  | Get i => returning OUser (UserController.get i) s
  | List => returning OList UserController.list s
  end.

Definition run (ops : list op) (s : state) : state :=
  fold_left (fun s o => (step o s).1) ops s.

(** ** Vocabulary of the properties *)

(** The parameters of [User.__init__] that a request has to supply. *)
Definition required : list string := ["name"; "email"; "age"; "sex"].

(** Sample data. *)
Definition alice_items : pydict :=
  [("name", VStr "A"); ("email", VStr "a@x.com");
   ("age", VInt 30); ("sex", VStr "male")].

Definition alice : value := VDict alice_items.

Definition user1 : User :=
  mkUser 1 (VStr "A") (VStr "a@x.com") (VInt 30) (VStr "male").

(** Unfolding of the two monads. *)
Ltac unfold_ctl :=
  unfold returning, lift, gets, modify, raise, mbind, mret,
    ctl_bind, ctl_ret, result_bind, result_ret in *.

Definition bob : value :=
  VDict [("name", VStr "B"); ("email", VStr "b@x.com");
         ("age", VInt 41); ("sex", VStr "female")].

Definition carol : value :=
  VDict [("name", VStr "C"); ("email", VStr "c@x.com");
         ("age", VInt 52); ("sex", VStr "female")].

Definition user3 : User :=
  mkUser 3 (VStr "C") (VStr "c@x.com") (VInt 52) (VStr "female").

(** The ids handed out by the successful [create] calls of a run, in the
    order of the calls. *)
Fixpoint created_ids (ops : list op) (s : state) : list Z :=
  match ops with
  | [] => []
  | o :: ops' =>
      match step o s with
      | (s', Ok (OUserRef ref)) => ref_id ref :: created_ids ops' s'
      | (s', _) => created_ids ops' s'
      end
  end.

(** Every user sits under its own id, and that id is below the counter. *)
Definition ids_wf (s : state) : Prop :=
  1 <= last_id s /\
  forall i u, users s !! i = Some u -> id u = i /\ 1 <= i < last_id s.

(** The e-mail index holds exactly the e-mails of the stored users. *)
Definition index_exact (s : state) : Prop :=
  forall e, e ∈ emails s <-> exists i u, users s !! i = Some u /\ email u = e.

(** No two stored users share an e-mail. *)
Definition emails_unique (s : state) : Prop :=
  forall i j u w,
    users s !! i = Some u -> users s !! j = Some w ->
    email u = email w -> i = j.

(** The rules of the schema, written out per field: what a supplied
    field has to look like for [check_value] to accept it. *)
Definition is_integer (v : value) : Prop := exists z, v = VInt z.

Definition field_ok (k : string) (v : value) : Prop :=
  (k = "age" /\ ((exists z, v = VInt z /\ 0 < z < 100) \/ v = VBool true))
  \/ ((k = "name" \/ k = "email") /\ exists t, v = VStr t /\ t <> "")
  \/ (k = "sex" /\ (v = VStr "male" \/ v = VStr "female")).

(** An update that renames the first user and supplies no e-mail. *)
Definition rename_to_B : value := VDict [("name", VStr "B")].

Definition user1_renamed : User :=
  mkUser 1 (VStr "B") (VStr "a@x.com") (VInt 30) (VStr "male").

(** Every stored e-mail is a text. *)
Definition emails_text (s : state) : Prop :=
  forall i u, users s !! i = Some u -> exists t, email u = VStr t.

(** The index is duplicate-free, exact, and e-mails are unique texts. *)
Definition email_ok (s : state) : Prop :=
  NoDup (emails s) /\ index_exact s /\ emails_unique s /\ emails_text s.

(** An operation that is not an update, or an update whose dictionary
    has an entry for the e-mail. *)
Definition supplies_email (o : op) : Prop :=
  match o with
  | Update _ (VDict d) => NoDup (keys d) /\ "email" ∈ keys d
  | _ => True
  end.

(** Whether a character occurs in a text. *)
Fixpoint contains (c : ascii) (s : string) : bool :=
  match s with
  | EmptyString => false
  | String c' s' => bool_decide (c' = c) || contains c s'
  end.

(** A user whose four fields are acceptable to the schema. *)
Definition user_valid (u : User) : Prop :=
  field_ok "name" (name u) /\ field_ok "email" (email u)
  /\ field_ok "age" (age u) /\ field_ok "sex" (sex u).

(** What a handler may do when it raises: the status is one of four, a
    400 or 404 comes with the controller untouched, and a 409 with the
    users and the index untouched. *)
Definition raises_safely (h : ctl pyobj) : Prop :=
  forall s s' e, h s = (s', Raise e) ->
    status_of e ∈ [400; 404; 409; 500]
    /\ (status_of e = 400 \/ status_of e = 404 -> s' = s)
    /\ (status_of e = 409 -> users s' = users s /\ emails s' = emails s).

(** Closes the three parts of [raises_safely] once the exception is
    known. *)
Ltac solve_safely :=
  repeat match goal with
  | H : exists _, _ |- _ => destruct H as [? H]
  | H : _ \/ _ |- _ => destruct H as [H | H]
  | H : _ /\ _ |- _ => destruct H as [? ?]
  end;
  subst; simpl in *;
  (split; [repeat (apply elem_of_cons; (by left) || right) |
           split; [intros [?|?]; (done || lia) | intros ?; (done || lia)]]).

(** A body announced as JSON that cannot be read: the length header is
    absent or not a number, or the bytes read do not decode. *)
Definition body_unreadable (json_loads : string -> option value)
    (r : request) : Prop :=
  exists ct, content_type r = Some ct
    /\ Text.startswith ct "application/json" = true
    /\ match content_length r with
       | None => True
       | Some cl =>
           match Text.int_of_str cl with
           | None => True
           | Some n => json_loads (Text.read n (rfile r)) = None
           end
       end.

(** The request is one of the two that carry a body. *)
Definition takes_body (r : request) : Prop :=
  (command r = POST /\ path r = "/users/")
  \/ (command r = PUT /\ is_Some (get_user_id r)).

(** The id an operation addresses, if it addresses one. *)
Definition target (o : op) : option Z :=
  match o with
  | Update i _ | Delete i => Text.int_of_str i
  | _ => None
  end.

(* ================================================================= *)
(** * Properties *)

Example int_of_str_1 : Text.int_of_str "1" = Some 1.
Proof. reflexivity. Qed.
Example int_of_str_neg : Text.int_of_str " -042 " = Some (-42).
Proof. reflexivity. Qed.
Example int_of_str_bad : Text.int_of_str "1a" = None /\ Text.int_of_str "" = None /\ Text.int_of_str "abc" = None.
Proof. repeat split. Qed.
Example split_users_1 : Text.split "/" 4 "/users/1" = [""; "users"; "1"].
Proof. reflexivity. Qed.
Example split_deep : Text.split "/" 4 "/a/b/c/d/e/f" = [""; "a"; "b"; "c"; "d/e/f"].
Proof. reflexivity. Qed.

(** ** Reading a user *)

Lemma get_at_unfold (id_str : string) (s : state) :
  UserController.get_at id_str s =
    match Text.int_of_str id_str with
    | None =>
        (s, Raise (HTTPError 404
                     (Text ("users with id " ++ id_str ++ " is not found"))))
    | Some n =>
        match users s !! n with
        | Some u => (s, Ok (n, u))
        | None =>
            (s, Raise (HTTPError 404 (Text ("user(" ++ pretty n ++ ") is not found"))))
        end
    end.
Proof.
  unfold UserController.get_at, UserController.user_id_from_str.
  unfold_ctl.
  destruct (Text.int_of_str id_str) as [n|]; [|reflexivity].
  destruct (users s !! n); reflexivity.
Qed.

Lemma get_unfold (id_str : string) (s : state) :
  UserController.get id_str s =
    match Text.int_of_str id_str with
    | None =>
        (s, Raise (HTTPError 404
                     (Text ("users with id " ++ id_str ++ " is not found"))))
    | Some n =>
        match users s !! n with
        | Some u => (s, Ok u)
        | None =>
            (s, Raise (HTTPError 404 (Text ("user(" ++ pretty n ++ ") is not found"))))
        end
    end.
Proof.
  unfold UserController.get. unfold mbind at 1. unfold ctl_bind.
  rewrite get_at_unfold.
  destruct (Text.int_of_str id_str) as [n|]; [|reflexivity].
  destruct (users s !! n); reflexivity.
Qed.

Lemma get_frame (s : state) (id_str : string) :
  (UserController.get id_str s).1 = s
  /\ forall u, (UserController.get id_str s).2 = Ok u ->
       exists n, Text.int_of_str id_str = Some n /\ users s !! n = Some u.
Proof.
  rewrite get_unfold.
  destruct (Text.int_of_str id_str) as [n|]; [|split; [done|discriminate]].
  destruct (users s !! n) as [u|] eqn:Hu; simpl; (split; [done|]).
  - intros w [= <-]. by exists n.
  - discriminate.
Qed.

(** C6: [get] raises [HTTPError] 404 exactly when the id text does not
    parse as an integer or no user is stored under the parsed id; in the
    remaining case it returns the stored [User] record itself, and it
    never changes the controller or raises anything else. *)
Theorem get_not_found_iff (s : state) (id_str : string) :
  ((exists m, (UserController.get id_str s).2 = Raise (HTTPError 404 m)) <->
   (Text.int_of_str id_str = None \/
    exists n, Text.int_of_str id_str = Some n /\ users s !! n = None))
  /\ (forall n u, Text.int_of_str id_str = Some n -> users s !! n = Some u ->
        UserController.get id_str s = (s, Ok u))
  /\ (forall e, (UserController.get id_str s).2 = Raise e ->
        exists m, e = HTTPError 404 m)
  /\ (UserController.get id_str s).1 = s.
Proof.
  rewrite get_unfold.
  destruct (Text.int_of_str id_str) as [n|] eqn:Hn.
  - destruct (users s !! n) as [u|] eqn:Hu; simpl.
    + repeat split.
      * intros [m Hm]. discriminate.
      * intros [H | (k & Hk & Hnone)]; [discriminate|].
        injection Hk as <-. congruence.
      * intros k w Hk Hw. injection Hk as <-. congruence.
      * intros e He. discriminate.
    + repeat split.
      * intros _. right. exists n. split; [reflexivity | assumption].
      * intros _. eexists. reflexivity.
      * intros k w Hk Hw. injection Hk as <-. congruence.
      * intros e He. injection He as <-. eexists. reflexivity.
  - simpl. repeat split.
    + intros _. left. reflexivity.
    + intros _. eexists. reflexivity.
    + intros k w Hk. discriminate.
    + intros e He. injection He as <-. eexists. reflexivity.
Qed.

Lemma get_not_found_iff_witness :
  let s := (UserController.create alice UserController.init).1 in
  (Text.int_of_str "1" = Some 1 /\ users s !! 1 = Some user1 /\
   UserController.get "1" s = (s, Ok user1))
  /\ (Text.int_of_str "x1" = None /\
      exists m, (UserController.get "x1" s).2 = Raise (HTTPError 404 m)).
Proof.
  intros s.
  destruct (get_not_found_iff s "1") as (_ & Hfound & _ & _).
  destruct (get_not_found_iff s "x1") as (Hiff & _ & _ & _).
  split.
  - split; [reflexivity|]. split; [vm_compute; reflexivity|].
    apply (Hfound 1 user1); [reflexivity | vm_compute; reflexivity].
  - split; [reflexivity|]. apply Hiff. left. reflexivity.
Defined.

(** ** Requests and responses *)

Lemma process_request_returns (status : Z) (handler : ctl pyobj)
    (s s' : state) (data : pyobj) :
  handler s = (s', Ok data) ->
  process_request status handler s = (s', write_response status data).
Proof. intros H. unfold process_request. rewrite H. reflexivity. Qed.

Lemma process_request_raises (status : Z) (handler : ctl pyobj)
    (s s' : state) (e : exn) :
  handler s = (s', Raise e) ->
  process_request status handler s =
    (s', mkResponse (status_of e) (Some (JError (str e)))).
Proof.
  intros H. unfold process_request. rewrite H. destruct e; reflexivity.
Qed.

Lemma returning_ok {A} (f : A -> pyobj) (c : ctl A) (s s' : state) (a : A) :
  c s = (s', Ok a) -> returning f c s = (s', Ok (f a)).
Proof. intros H. unfold_ctl. rewrite H. reflexivity. Qed.

Lemma returning_raise {A} (f : A -> pyobj) (c : ctl A) (s s' : state) (e : exn) :
  c s = (s', Raise e) -> returning f c s = (s', Raise e).
Proof. intros H. unfold_ctl. rewrite H. reflexivity. Qed.

Lemma list_unfold (s : state) :
  UserController.list s =
    (s, Ok (omap (fun id_ => users s !! id_)
              (merge_sort Z.le (map_to_list (users s)).*1))).
Proof. reflexivity. Qed.

(** C9: a handler that returns [None] is answered with 204 and no body,
    whatever status the route names, and a handler that returns anything
    else is answered with the route's status and a JSON body. In
    particular a [DELETE] that succeeds gives 204 with no body, [GET] and
    [PUT] that succeed give 200 and [POST] that succeeds gives 201, each
    with the JSON document of what the controller returned. *)
Theorem success_statuses (json_loads : string -> option value)
    (r : request) (s s' : state) :
  (forall status handler,
      handler s = (s', Ok ONone) ->
      process_request status handler s = (s', mkResponse 204 None))
  /\ (forall status handler data,
      data <> ONone -> handler s = (s', Ok data) ->
      process_request status handler s =
        (s', mkResponse status (Some (dumps data))))
  /\ (forall i,
      command r = DELETE -> get_user_id r = Some i ->
      UserController.delete i s = (s', Ok tt) ->
      handle json_loads r s = (s', mkResponse 204 None))
  /\ (command r = GET -> path r = "/users/" ->
      exists l, UserController.list s = (s, Ok l) /\
        handle json_loads r s =
          (s, mkResponse 200 (Some (JValue (VList (UserM.to_dict <$> l))))))
  /\ (forall i u,
      command r = GET -> path r <> "/users/" -> get_user_id r = Some i ->
      UserController.get i s = (s', Ok u) ->
      handle json_loads r s =
        (s', mkResponse 200 (Some (JValue (UserM.to_dict u)))))
  /\ (forall data ref,
      command r = POST -> path r = "/users/" ->
      get_data json_loads r = Ok data ->
      UserController.create data s = (s', Ok ref) ->
      handle json_loads r s =
        (s', mkResponse 201 (Some (JValue (UserRefM.to_dict ref)))))
  /\ (forall i data u,
      command r = PUT -> get_user_id r = Some i ->
      get_data json_loads r = Ok data ->
      UserController.update i data s = (s', Ok u) ->
      handle json_loads r s =
        (s', mkResponse 200 (Some (JValue (UserM.to_dict u))))).
Proof.
  repeat apply conj.
  - intros status handler H.
    rewrite (process_request_returns _ _ _ _ _ H). reflexivity.
  - intros status handler data Hdata H.
    rewrite (process_request_returns _ _ _ _ _ H).
    destruct data; try reflexivity. congruence.
  - intros i Hc Hid Hdel. unfold handle, do_DELETE. rewrite Hc, Hid.
    apply (returning_ok (fun _ : unit => ONone)) in Hdel.
    rewrite (process_request_returns _ _ _ _ _ Hdel). reflexivity.
  - intros Hc Hp. eexists. split; [apply list_unfold|].
    unfold handle, do_GET. rewrite Hc, Hp.
    rewrite bool_decide_eq_true_2 by reflexivity.
    erewrite process_request_returns;
      [| apply returning_ok; apply list_unfold].
    reflexivity.
  - intros i u Hc Hp Hid Hget. unfold handle, do_GET. rewrite Hc, Hid.
    rewrite bool_decide_eq_false_2 by assumption.
    erewrite process_request_returns; [| apply returning_ok; exact Hget].
    reflexivity.
  - intros data ref Hc Hp Hdata Hcr. unfold handle, do_POST. rewrite Hc, Hp.
    rewrite bool_decide_eq_true_2 by reflexivity.
    erewrite process_request_returns.
    2:{ unfold call_with_body. rewrite Hdata.
        apply returning_ok. exact Hcr. }
    reflexivity.
  - intros i data u Hc Hid Hdata Hup. unfold handle, do_PUT. rewrite Hc, Hid.
    erewrite process_request_returns.
    2:{ unfold call_with_body. rewrite Hdata.
        apply returning_ok. exact Hup. }
    reflexivity.
Qed.

Lemma success_statuses_witness :
  let s0 := UserController.init in
  let s1 := (UserController.create alice s0).1 in
  let s2 := (UserController.delete "1" s1).1 in
  let loads := fun _ : string => Some alice in
  let post := mkRequest POST "/users/" (Some "application/json") (Some "2") "{}" in
  let del := mkRequest DELETE "/users/1" None None "" in
  (command del = DELETE /\ get_user_id del = Some "1" /\
   UserController.delete "1" s1 = (s2, Ok tt) /\
   handle loads del s1 = (s2, mkResponse 204 None))
  /\ (command post = POST /\ path post = "/users/" /\
      get_data loads post = Ok alice /\
      UserController.create alice s0 = (s1, Ok (UserRefM.init user1)) /\
      handle loads post s0 =
        (s1, mkResponse 201
               (Some (JValue (UserRefM.to_dict (UserRefM.init user1)))))).
Proof.
  intros s0 s1 s2 loads post del.
  destruct (success_statuses loads del s1 s2) as (_ & _ & Hdel & _).
  destruct (success_statuses loads post s0 s1) as (_ & _ & _ & _ & _ & Hpost & _).
  split.
  - split; [reflexivity|]. split; [reflexivity|].
    split; [vm_compute; reflexivity|].
    apply (Hdel "1"); [reflexivity | reflexivity | vm_compute; reflexivity].
  - split; [reflexivity|]. split; [reflexivity|].
    split; [reflexivity|]. split; [vm_compute; reflexivity|].
    apply (Hpost alice (UserRefM.init user1));
      [reflexivity | reflexivity | reflexivity | vm_compute; reflexivity].
Defined.

(** ** The content type of a request body *)

Lemma call_with_body_wraps (json_loads : string -> option value)
    (r : request) (handler : value -> ctl pyobj) (s : state) (e : exn) :
  get_data json_loads r = Raise e ->
  call_with_body json_loads r handler s = (s, Raise (HTTPError 400 (str e))).
Proof. intros H. unfold call_with_body. rewrite H. reflexivity. Qed.

Lemma get_data_content_type (json_loads : string -> option value) (r : request) :
  match content_type r with
  | None => True
  | Some ct => Text.startswith ct "application/json" = false
  end ->
  exists e, get_data json_loads r = Raise e.
Proof.
  unfold get_data. destruct (content_type r) as [ct|].
  - intros ->. simpl. eexists. reflexivity.
  - intros _. eexists. reflexivity.
Qed.

(** Every [POST] or [PUT] that reaches [call_with_body] without a JSON
    content type is answered 400: the 415 raised by [get_data] is caught
    by the handler's own [except Exception] and raised again as 400. *)
Lemma no_json_content_type_400 (json_loads : string -> option value)
    (r : request) (s : state) :
  match content_type r with
  | None => True
  | Some ct => Text.startswith ct "application/json" = false
  end ->
  (command r = POST /\ path r = "/users/") \/
  (command r = PUT /\ is_Some (get_user_id r)) ->
  (handle json_loads r s).1 = s /\ status (handle json_loads r s).2 = 400.
Proof.
  intros Hct Hroute.
  destruct (get_data_content_type json_loads r Hct) as [e He].
  destruct Hroute as [[Hc Hp] | [Hc [i Hi]]].
  - unfold handle, do_POST. rewrite Hc, Hp.
    rewrite bool_decide_eq_true_2 by reflexivity.
    erewrite process_request_raises by (apply call_with_body_wraps; exact He).
    split; reflexivity.
  - unfold handle, do_PUT. rewrite Hc, Hi.
    erewrite process_request_raises by (apply call_with_body_wraps; exact He).
    split; reflexivity.
Qed.

(** C3, as the code runs it: a [POST] whose content type is [text/plain],
    a [POST] with no content type and a [PUT] whose content type is
    [text/plain] are all answered with status 400, not 415. *)
Theorem unsupported_media_type_answered_400 (json_loads : string -> option value) :
  (handle json_loads
     (mkRequest POST "/users/" (Some "text/plain") (Some "2") "{}")
     UserController.init).2
    = mkResponse 400 (Some (JError (Text "expected application/json")))
  /\ (handle json_loads
        (mkRequest POST "/users/" None (Some "2") "{}")
        UserController.init).2
    = mkResponse 400 (Some (JError (StrOf KeyError)))
  /\ (handle json_loads
        (mkRequest PUT "/users/1" (Some "text/plain") (Some "2") "{}")
        (UserController.create alice UserController.init).1).2
    = mkResponse 400 (Some (JError (Text "expected application/json"))).
Proof. repeat split. Qed.

(** ** Creating a user *)

Lemma update_email_unfold (new_email old_email : value) (s : state) :
  UserController.update_email new_email old_email s =
    if value_eqb new_email old_email then (s, Ok tt)
    else
      match (if negb (UserController.is_none new_email) then
               if UserController.mem new_email (emails s)
               then (s, Raise (HTTPError 409 (Text "Email is not unique")))
               else (UserController.set_emails
                       (UserController.add new_email) s, Ok tt)
             else (s, Ok tt)) with
      | (s1, Raise e) => (s1, Raise e)
      | (s1, Ok _) =>
          if negb (UserController.is_none old_email) then
            if UserController.mem old_email (emails s1)
            then (UserController.set_emails
                    (UserController.discard old_email) s1, Ok tt)
            else (s1, Raise (Builtin KeyError))
          else (s1, Ok tt)
      end.
Proof.
  unfold UserController.update_email. unfold_ctl.
  destruct (value_eqb new_email old_email); [reflexivity|].
  destruct (negb (UserController.is_none new_email)).
  - destruct (UserController.mem new_email (emails s)); [reflexivity|].
    destruct (negb (UserController.is_none old_email)); [|reflexivity].
    destruct (UserController.mem old_email _); reflexivity.
  - destruct (negb (UserController.is_none old_email)); [|reflexivity].
    destruct (UserController.mem old_email _); reflexivity.
Qed.

Lemma create_unfold (data : value) (s : state) :
  UserController.create data s =
    match UserSchema.validate data with
    | Raise e => (s, Raise e)
    | Ok _ =>
        let id_ := last_id s in
        let s1 := UserController.set_last_id (id_ + 1) s in
        match (match data with
               | VDict d => UserM.init id_ d
               | _ => Raise (Builtin TypeError)
               end) with
        | Raise e => (s1, Raise e)
        | Ok user =>
            match UserController.update_email (email user) VNone s1 with
            | (s2, Raise e) => (s2, Raise e)
            | (s2, Ok _) =>
                (UserController.set_users (insert id_ user) s2,
                 Ok (UserRefM.init user))
            end
        end
    end.
Proof.
  unfold UserController.create, UserController.next_id. unfold_ctl.
  destruct (UserSchema.validate data); [|reflexivity].
  cbv zeta.
  destruct (match data with VDict d => UserM.init (last_id s) d
                       | _ => Raise (Builtin TypeError) end); [|reflexivity].
  destruct (UserController.update_email _ _ _) as [s2 [[]|e]]; reflexivity.
Qed.

Lemma dict_get_None (k : string) (d : pydict) :
  dict_get k d = None <-> k ∉ keys d.
Proof.
  unfold keys. induction d as [|[k' v] d IH]; simpl.
  - split; [intros _; apply not_elem_of_nil | reflexivity].
  - rewrite not_elem_of_cons. case_bool_decide as Hk.
    + split; [discriminate | intros [Hne _]; congruence].
    + rewrite IH. split; [intros H; split; [congruence | exact H] | intros [_ H]; exact H].
Qed.

Lemma dict_get_filter_None (P : string * value -> Prop)
    `{forall x, Decision (P x)} (k : string) (d : pydict) :
  dict_get k d = None -> dict_get k (filter P d) = None.
Proof.
  rewrite !dict_get_None. unfold keys. intros Hk Hin. apply Hk.
  apply list_elem_of_fmap in Hin as (kv & -> & Hkv).
  apply list_elem_of_filter in Hkv as [_ Hkv].
  apply list_elem_of_fmap. exists kv. split; [reflexivity | exact Hkv].
Qed.

Lemma init_missing (id_ : Z) (d : pydict) (k : string) :
  k ∈ required -> k ∉ keys d ->
  UserM.init id_ d = Raise (Builtin TypeError).
Proof.
  intros Hk Hd. apply dict_get_None in Hd.
  apply (dict_get_filter_None (fun kv => kv.1 <> "id_")) in Hd.
  unfold UserM.init, required in *.
  repeat (apply elem_of_cons in Hk as [-> | Hk];
          [rewrite Hd; repeat case_match; reflexivity|]).
  apply elem_of_nil in Hk. contradiction.
Qed.

(** C10: a [POST /users/] whose JSON object passes validation but lacks
    one of [name], [email], [age], [sex] is answered with status 500; the
    counter has advanced by one, and neither the users nor the e-mail
    index have changed. *)
Theorem create_missing_field_500 (json_loads : string -> option value)
    (r : request) (s : state) (d : pydict) (k : string) :
  command r = POST -> path r = "/users/" ->
  get_data json_loads r = Ok (VDict d) ->
  UserSchema.validate (VDict d) = Ok tt ->
  k ∈ required -> k ∉ keys d ->
  status (handle json_loads r s).2 = 500
  /\ last_id (handle json_loads r s).1 = last_id s + 1
  /\ users (handle json_loads r s).1 = users s
  /\ emails (handle json_loads r s).1 = emails s.
Proof.
  intros Hc Hp Hdata Hval Hk Hd.
  unfold handle, do_POST. rewrite Hc, Hp.
  rewrite bool_decide_eq_true_2 by reflexivity.
  erewrite process_request_raises.
  2:{ unfold call_with_body. rewrite Hdata. apply returning_raise.
      rewrite create_unfold, Hval. cbv zeta.
      rewrite (init_missing _ _ _ Hk Hd). reflexivity. }
  repeat split.
Qed.

Lemma create_missing_field_500_witness :
  let loads := fun _ : string => Some (VDict [("name", VStr "A")]) in
  let r := mkRequest POST "/users/" (Some "application/json") (Some "13") "{}" in
  status (handle loads r UserController.init).2 = 500
  /\ last_id (handle loads r UserController.init).1 = 2
  /\ users (handle loads r UserController.init).1 = ∅
  /\ emails (handle loads r UserController.init).1 = [].
Proof.
  intros loads r.
  apply (create_missing_field_500 loads r UserController.init
           [("name", VStr "A")] "email").
  - reflexivity.
  - reflexivity.
  - reflexivity.
  - reflexivity.
  - vm_compute. apply list_elem_of_In. simpl. tauto.
  - vm_compute. intros H. apply list_elem_of_In in H. simpl in H.
    destruct H as [H|[]]. discriminate.
Defined.

(** ** Round trip *)

(** Whatever order the decoded object iterates in, [create] does the
    same. *)
Lemma create_alice_any_order (d : pydict) :
  d ≡ₚ alice_items ->
  UserController.create (VDict d) UserController.init =
    (mkState {[1 := user1]} 2 [VStr "a@x.com"], Ok (UserRefM.init user1)).
Proof.
  intros Hd. symmetry in Hd. apply permutations_Permutation in Hd.
  revert d Hd. apply Forall_forall.
  let l := eval vm_compute in (permutations alice_items) in
  change (permutations alice_items) with l.
  repeat (constructor; [vm_compute; reflexivity|]). constructor.
Qed.

(** C7: on a fresh controller, a [POST /users/] whose body decodes to
    the object with name A, email a@x.com, age 30, sex male (in whatever
    order) is answered 201 with the document id 1, name A, url /users/1;
    a [GET /users/1] that follows is answered 200 with the document id 1,
    name A, email a@x.com, age 30, sex male. *)
Theorem create_get_round_trip (json_loads : string -> option value)
    (post get : request) (d : pydict) :
  command post = POST -> path post = "/users/" ->
  get_data json_loads post = Ok (VDict d) -> d ≡ₚ alice_items ->
  command get = GET -> path get = "/users/1" ->
  exists s1,
    handle json_loads post UserController.init =
      (s1, mkResponse 201
             (Some (JValue (VDict [("id", VInt 1); ("name", VStr "A");
                                   ("url", VStr "/users/1")]))))
    /\ handle json_loads get s1 =
      (s1, mkResponse 200
             (Some (JValue (VDict [("id", VInt 1); ("name", VStr "A");
                                   ("email", VStr "a@x.com");
                                   ("age", VInt 30); ("sex", VStr "male")])))).
Proof.
  intros Hc Hp Hdata Hd Hc' Hp'.
  exists (mkState {[1 := user1]} 2 [VStr "a@x.com"]). split.
  - unfold handle, do_POST. rewrite Hc, Hp.
    rewrite bool_decide_eq_true_2 by reflexivity.
    erewrite process_request_returns.
    2:{ unfold call_with_body. rewrite Hdata.
        apply returning_ok. by apply create_alice_any_order. }
    reflexivity.
  - unfold handle, do_GET, get_user_id. rewrite Hc', Hp'.
    vm_compute. reflexivity.
Qed.

Lemma create_get_round_trip_witness :
  let loads := fun _ : string => Some alice in
  let post := mkRequest POST "/users/" (Some "application/json") (Some "61") "{}" in
  let get := mkRequest GET "/users/1" None None "" in
  exists s1,
    handle loads post UserController.init =
      (s1, mkResponse 201
             (Some (JValue (VDict [("id", VInt 1); ("name", VStr "A");
                                   ("url", VStr "/users/1")]))))
    /\ handle loads get s1 =
      (s1, mkResponse 200
             (Some (JValue (VDict [("id", VInt 1); ("name", VStr "A");
                                   ("email", VStr "a@x.com");
                                   ("age", VInt 30); ("sex", VStr "male")])))).
Proof.
  intros loads post get.
  apply (create_get_round_trip loads post get alice_items); reflexivity.
Defined.

(** ** Listing *)

Lemma omap_lookup_keys (us : gmap Z User) (l : list (Z * User)) :
  (forall k u, (k, u) ∈ l -> us !! k = Some u) ->
  omap (fun k => us !! k) l.*1 = l.*2.
Proof.
  induction l as [|[k u] l IH]; intros H; [reflexivity|].
  simpl. rewrite (H k u) by (apply elem_of_cons; by left).
  f_equal. apply IH. intros k' u' Hin. apply H. apply elem_of_cons. by right.
Qed.

Lemma omap_lookup_Forall2 (us : gmap Z User) (ks : list Z) :
  Forall (fun k => is_Some (us !! k)) ks ->
  Forall2 (fun k u => us !! k = Some u) ks (omap (fun k => us !! k) ks).
Proof.
  induction 1 as [|k ks [u Hu] _ IH]; simpl; [constructor|].
  rewrite Hu. constructor; assumption.
Qed.

Lemma sorted_le_NoDup_lt (ks : list Z) :
  StronglySorted Z.le ks -> NoDup ks -> StronglySorted Z.lt ks.
Proof.
  induction 1 as [|k ks Hs IH Hall]; intros Hnd; [constructor|].
  apply NoDup_cons in Hnd as [Hk Hnd]. constructor; [by apply IH|].
  rewrite Forall_forall in Hall |- *. intros x Hx.
  specialize (Hall x Hx). assert (k <> x) by (intros ->; contradiction). lia.
Qed.

Lemma list_keys (s : state) :
  let ks := merge_sort Z.le (map_to_list (users s)).*1 in
  ks ≡ₚ (map_to_list (users s)).*1
  /\ StronglySorted Z.lt ks
  /\ Forall (fun k => is_Some (users s !! k)) ks.
Proof.
  intros ks.
  assert (Hperm : ks ≡ₚ (map_to_list (users s)).*1)
    by apply merge_sort_Permutation.
  split; [exact Hperm|]. split.
  - apply sorted_le_NoDup_lt.
    + apply StronglySorted_merge_sort; apply _.
    + rewrite Hperm. apply NoDup_fst_map_to_list.
  - rewrite Hperm. apply Forall_forall. intros k Hk.
    apply list_elem_of_fmap in Hk as ([k' u] & -> & Hin).
    apply elem_of_map_to_list in Hin. by exists u.
Qed.

Lemma list_values (s : state) :
  omap (fun k => users s !! k) (merge_sort Z.le (map_to_list (users s)).*1)
  ≡ₚ (map_to_list (users s)).*2.
Proof.
  rewrite merge_sort_Permutation.
  rewrite omap_lookup_keys; [reflexivity|].
  intros k u Hin. by apply elem_of_map_to_list.
Qed.

(** ** Updating and deleting, step by step *)

Lemma update_unfold (id_str : string) (data : value) (s : state) :
  UserController.update id_str data s =
    match UserController.get_at id_str s with
    | (s0, Raise e) => (s0, Raise e)
    | (s0, Ok (id_, user)) =>
        match UserSchema.validate data with
        | Raise e => (s0, Raise e)
        | Ok _ =>
            let d := match data with VDict d => d | _ => [] end in
            match UserController.update_email
                    (default VNone (dict_get "email" d)) (email user) s0 with
            | (s1, Raise e) => (s1, Raise e)
            | (s1, Ok _) =>
                (UserController.set_users (insert id_ (UserM.update user d)) s1,
                 Ok (UserM.update user d))
            end
        end
    end.
Proof.
  unfold UserController.update. unfold mbind at 1. unfold ctl_bind.
  destruct (UserController.get_at id_str s) as [s0 [[id_ user]|e]];
    [|reflexivity].
  unfold_ctl. destruct (UserSchema.validate data); [|reflexivity].
  cbv zeta.
  destruct (UserController.update_email _ _ _) as [s1 [[]|e]]; reflexivity.
Qed.

Lemma delete_unfold (id_str : string) (s : state) :
  UserController.delete id_str s =
    match UserController.get id_str s with
    | (s0, Raise e) => (s0, Raise e)
    | (s0, Ok user) =>
        match UserController.update_email VNone (email user) s0 with
        | (s1, Raise e) => (s1, Raise e)
        | (s1, Ok _) =>
            match users s1 !! id user with
            | Some _ =>
                (UserController.set_users (base.delete (id user)) s1, Ok tt)
            | None => (s1, Raise (Builtin KeyError))
            end
        end
    end.
Proof.
  unfold UserController.delete. unfold mbind at 1. unfold ctl_bind.
  destruct (UserController.get id_str s) as [s0 [user|e]]; [|reflexivity].
  unfold_ctl.
  destruct (UserController.update_email _ _ _) as [s1 [[]|e]]; [|reflexivity].
  destruct (users s1 !! id user); reflexivity.
Qed.

(** [__update_email] touches the index only. *)
Lemma update_email_frame (new_email old_email : value) (s : state) :
  users (UserController.update_email new_email old_email s).1 = users s
  /\ last_id (UserController.update_email new_email old_email s).1 = last_id s.
Proof.
  rewrite update_email_unfold.
  repeat (case_match; simplify_eq/=; try done).
Qed.

Lemma setattr_id (u : User) (k : string) (v : value) :
  id (UserM.setattr u k v) = id u.
Proof. unfold UserM.setattr. repeat case_bool_decide; reflexivity. Qed.

Lemma update_id (d : pydict) (u : User) : id (UserM.update u d) = id u.
Proof.
  unfold UserM.update. revert u.
  induction d as [|[k v] d IH]; intros u; simpl; [reflexivity|].
  rewrite IH. apply setattr_id.
Qed.

Lemma init_id (id_ : Z) (d : pydict) (u : User) :
  UserM.init id_ d = Ok u -> id u = id_.
Proof.
  unfold UserM.init. intros H.
  repeat (case_match; simplify_eq/=; try done).
Qed.

(** ** What each operation does to the users and the counter *)

Lemma check_value_error (k : string) (v : value) (code : Z) (m : message) :
  UserSchema.check_value k v = Raise (HTTPError code m) -> code = 400.
Proof.
  unfold UserSchema.check_value. intros H.
  repeat (case_match; simplify_eq/=; try done).
Qed.

Lemma validate_error (data : value) (code : Z) (m : message) :
  UserSchema.validate data = Raise (HTTPError code m) -> code = 400.
Proof.
  destruct data as [| | | | | |d]; simpl; try discriminate.
  induction d as [|[k v] d IH]; simpl; [discriminate|].
  unfold mbind, result_bind.
  destruct (UserSchema.check_value k v) eqn:Hk; [exact IH|].
  intros [= ->]. by apply check_value_error in Hk.
Qed.

Lemma init_error (id_ : Z) (d : pydict) (e : exn) :
  UserM.init id_ d = Raise e -> e = Builtin TypeError.
Proof.
  unfold UserM.init. intros H.
  repeat (case_match; simplify_eq/=; try done).
Qed.

Lemma create_ok (data : value) (s s' : state) (ref : UserRef) :
  UserController.create data s = (s', Ok ref) ->
  exists u, ref = UserRefM.init u /\ id u = last_id s
    /\ last_id s' = last_id s + 1
    /\ users s' = <[last_id s := u]> (users s).
Proof.
  rewrite create_unfold. intros H.
  destruct (UserSchema.validate data); [|discriminate].
  cbv zeta in H.
  destruct data as [| | | | | |d]; try discriminate.
  destruct (UserM.init (last_id s) d) as [u|] eqn:Hinit; [|discriminate].
  pose proof (update_email_frame (email u) VNone
                (UserController.set_last_id (last_id s + 1) s)) as [Hu Hl].
  destruct (UserController.update_email _ _ _) as [s2 [[]|]];
    [|discriminate].
  simpl in Hu, Hl. injection H as <- <-.
  exists u. split; [reflexivity|]. split; [by eapply init_id|].
  split; simpl; congruence.
Qed.

Lemma create_raise (data : value) (s s' : state) (e : exn) :
  UserController.create data s = (s', Raise e) ->
  users s' = users s /\ last_id s <= last_id s' <= last_id s + 1.
Proof.
  rewrite create_unfold. intros H.
  destruct (UserSchema.validate data); [|simplify_eq; split; [done|lia]].
  cbv zeta in H.
  destruct (match data with VDict d => UserM.init (last_id s) d
                       | _ => Raise (Builtin TypeError) end) as [u|];
    [|simplify_eq; simpl; split; [done|lia]].
  pose proof (update_email_frame (email u) VNone
                (UserController.set_last_id (last_id s + 1) s)) as [Hu Hl].
  destruct (UserController.update_email _ _ _) as [s2 [[]|]];
    [discriminate|].
  simpl in Hu, Hl. injection H as <- <-. split; [done|lia].
Qed.

Lemma create_conflict (data : value) (s s' : state) (m : message) :
  UserController.create data s = (s', Raise (HTTPError 409 m)) ->
  last_id s' = last_id s + 1 /\ users s' = users s /\ emails s' = emails s.
Proof.
  rewrite create_unfold. intros H.
  destruct (UserSchema.validate data) eqn:Hval.
  2:{ simplify_eq. apply validate_error in Hval. lia. }
  cbv zeta in H.
  destruct data as [| | | | | |d]; try discriminate.
  destruct (UserM.init (last_id s) d) as [u|] eqn:Hinit.
  2:{ simplify_eq. apply init_error in Hinit. discriminate. }
  rewrite update_email_unfold in H.
  repeat (case_match; simplify_eq/=; try done).
Qed.

Lemma update_effect (id_str : string) (data : value) (s s' : state)
    (r : result User) :
  UserController.update id_str data s = (s', r) ->
  last_id s' = last_id s
  /\ (users s' = users s \/
      exists k u d, users s !! k = Some u /\
        users s' = <[k := UserM.update u d]> (users s)).
Proof.
  rewrite update_unfold, get_at_unfold. intros H.
  destruct (Text.int_of_str id_str) as [n|]; [|simplify_eq; auto].
  destruct (users s !! n) as [u|] eqn:Hu; [|simplify_eq; auto].
  destruct (UserSchema.validate data); [|simplify_eq; auto].
  cbv zeta in H.
  match type of H with
  | context [UserController.update_email ?a ?b ?c] =>
      pose proof (update_email_frame a b c) as [Hus Hl];
      destruct (UserController.update_email a b c) as [s1 [[]|]]
  end; simpl in Hus, Hl; simplify_eq; simpl.
  - split; [done|]. right. eexists n, u, _. split; [done|]. by rewrite Hus.
  - auto.
Qed.

Lemma delete_effect (id_str : string) (s s' : state) (r : result unit) :
  UserController.delete id_str s = (s', r) ->
  last_id s' = last_id s
  /\ (users s' = users s \/ exists k, users s' = base.delete k (users s)).
Proof.
  rewrite delete_unfold, get_unfold. intros H.
  destruct (Text.int_of_str id_str) as [n|]; [|simplify_eq; auto].
  destruct (users s !! n) as [u|] eqn:Hu; [|simplify_eq; auto].
  pose proof (update_email_frame VNone (email u) s) as [Hus Hl].
  destruct (UserController.update_email _ _ _) as [s1 [[]|]];
    simpl in Hus, Hl; [|simplify_eq; auto].
  destruct (users s1 !! id u); simplify_eq; simpl; [|auto].
  split; [done|]. right. exists (id u). by rewrite Hus.
Qed.

Lemma returning_unfold {A} (f : A -> pyobj) (c : ctl A) (s : state) :
  returning f c s =
    match c s with
    | (s', Ok a) => (s', Ok (f a))
    | (s', Raise e) => (s', Raise e)
    end.
Proof. reflexivity. Qed.

(** ** Runs *)

Lemma step_effect (o : op) (s : state) :
  match step o s with
  | (s', Ok (OUserRef ref)) =>
      ref_id ref = last_id s /\ last_id s' = last_id s + 1
      /\ exists u, id u = last_id s /\ users s' = <[last_id s := u]> (users s)
  | (s', _) =>
      last_id s <= last_id s' <= last_id s + 1
      /\ (users s' = users s
          \/ (exists k u d, users s !! k = Some u /\
                users s' = <[k := UserM.update u d]> (users s))
          \/ (exists k, users s' = base.delete k (users s)))
  end.
Proof.
  destruct o as [data|i data|i|i|]; unfold step; rewrite returning_unfold.
  - destruct (UserController.create data s) as [s' [ref|e]] eqn:H.
    + apply create_ok in H as (u & -> & Hid & Hl & Hu). simpl.
      repeat split; try done. by exists u.
    + apply create_raise in H as [Hu Hl]. auto.
  - destruct (UserController.update i data s) as [s' r] eqn:H.
    apply update_effect in H as [Hl Hu].
    destruct r; (split; [lia|]); destruct Hu; auto.
  - destruct (UserController.delete i s) as [s' r] eqn:H.
    apply delete_effect in H as [Hl Hu].
    destruct r; (split; [lia|]); destruct Hu; auto.
  - destruct (get_frame s i) as [Hs _].
    destruct (UserController.get i s) as [s' r]. simpl in Hs. subst s'.
    destruct r; (split; [lia|]); auto.
  - rewrite list_unfold. split; [lia|]. auto.
Qed.

Lemma step_users (o : op) (s : state) :
  last_id s <= last_id (step o s).1 <= last_id s + 1
  /\ (users (step o s).1 = users s
      \/ (exists k u d, users s !! k = Some u /\
            users (step o s).1 = <[k := UserM.update u d]> (users s))
      \/ (exists k, users (step o s).1 = base.delete k (users s))
      \/ (exists u, id u = last_id s /\
            last_id (step o s).1 = last_id s + 1 /\
            users (step o s).1 = <[last_id s := u]> (users s))).
Proof.
  pose proof (step_effect o s) as H.
  destruct (step o s) as [s' [obj|e]]; simpl.
  - destruct obj as [|w|ref|l|m];
      try (destruct H as [Hl Hu]; split; [lia|];
           destruct Hu as [Hu | [Hu | Hu]];
           [left | right; left | right; right; left]; exact Hu).
    destruct H as (_ & Hl & u & Hid & Hu). split; [lia|].
    do 3 right. by exists u.
  - destruct H as [Hl Hu]; split; [lia|].
    destruct Hu as [Hu | [Hu | Hu]];
      [left | right; left | right; right; left]; exact Hu.
Qed.

Lemma step_ids_wf (o : op) (s : state) : ids_wf s -> ids_wf (step o s).1.
Proof.
  intros [Hone Hwf]. destruct (step_users o s) as [Hl Hu].
  split; [lia|]. intros i u Hi.
  destruct Hu as [Hu | [(k & w & d & Hk & Hu) | [(k & Hu) | (w & Hid & Hl' & Hu)]]];
    rewrite Hu in Hi.
  - destruct (Hwf i u Hi). split; [done|lia].
  - destruct (decide (k = i)) as [->|Hne].
    + rewrite lookup_insert_eq in Hi. injection Hi as <-.
      rewrite update_id. destruct (Hwf i w Hk). split; [done|lia].
    + rewrite lookup_insert_ne in Hi by done.
      destruct (Hwf i u Hi). split; [done|lia].
  - destruct (decide (k = i)) as [->|Hne].
    + rewrite lookup_delete_eq in Hi. discriminate.
    + rewrite lookup_delete_ne in Hi by done.
      destruct (Hwf i u Hi). split; [done|lia].
  - destruct (decide (last_id s = i)) as [<-|Hne].
    + rewrite lookup_insert_eq in Hi. injection Hi as <-. split; [done|lia].
    + rewrite lookup_insert_ne in Hi by done.
      destruct (Hwf i u Hi). split; [done|lia].
Qed.

Lemma run_cons (o : op) (ops : list op) (s : state) :
  run (o :: ops) s = run ops (step o s).1.
Proof. reflexivity. Qed.

Lemma run_ids_wf (ops : list op) (s : state) : ids_wf s -> ids_wf (run ops s).
Proof.
  revert s. induction ops as [|o ops IH]; intros s Hs; [exact Hs|].
  rewrite run_cons. apply IH. by apply step_ids_wf.
Qed.

Lemma init_ids_wf : ids_wf UserController.init.
Proof.
  split; [done|]. intros i u Hi. simpl in Hi.
  by rewrite lookup_empty in Hi.
Qed.

Lemma run_last_id (ops : list op) (s : state) : last_id s <= last_id (run ops s).
Proof.
  revert s. induction ops as [|o ops IH]; intros s; [simpl; lia|].
  rewrite run_cons. specialize (IH (step o s).1).
  destruct (step_users o s) as [Hl _]. lia.
Qed.

(** The ids a run hands out lie between the counter before and after the
    run, in strictly ascending order. *)
Lemma created_ids_sorted (ops : list op) (s : state) :
  Forall (fun i => last_id s <= i < last_id (run ops s)) (created_ids ops s)
  /\ StronglySorted Z.lt (created_ids ops s).
Proof.
  revert s. induction ops as [|o ops IH]; intros s; [split; constructor|].
  rewrite run_cons. simpl created_ids.
  pose proof (step_effect o s) as H.
  pose proof (run_last_id ops (step o s).1) as Hrun.
  destruct (IH (step o s).1) as [Hall Hsorted].
  destruct (step o s) as [s' [obj|e]]; simpl in *.
  - destruct obj;
      try (destruct H as [Hl _]; split; [|done];
           eapply Forall_impl; [exact Hall|]; simpl; intros; lia).
    destruct H as (Hid & Hl & _). split.
    + constructor; [lia|].
      eapply Forall_impl; [exact Hall|]. simpl; intros; lia.
    + constructor; [done|].
      eapply Forall_impl; [exact Hall|]. simpl; intros; lia.
  - destruct H as [Hl _]. split; [|done].
    eapply Forall_impl; [exact Hall|]. simpl; intros; lia.
Qed.

(** Whoever is stored after a run was stored before it or was created
    during it. *)
Lemma stored_created (ops : list op) (s : state) (i : Z) :
  is_Some (users (run ops s) !! i) ->
  is_Some (users s !! i) \/ i ∈ created_ids ops s.
Proof.
  revert s. induction ops as [|o ops IH]; intros s Hi; [by left|].
  rewrite run_cons in Hi. apply IH in Hi. simpl created_ids.
  pose proof (step_effect o s) as H.
  destruct (step o s) as [s' [obj|e]]; simpl in *.
  - destruct obj;
      try (destruct Hi as [Hi|Hi]; [|by right];
           destruct H as [_ [Hu | [(k & w & d & Hk & Hu) | (k & Hu)]]];
           rewrite Hu in Hi; left;
           [ done
           | destruct (decide (k = i)) as [->|];
             [by eexists | by rewrite lookup_insert_ne in Hi]
           | destruct (decide (k = i)) as [->|];
             [ rewrite lookup_delete_eq in Hi; by destruct Hi
             | by rewrite lookup_delete_ne in Hi ] ]).
    destruct H as (Hid & _ & u & _ & Hu).
    destruct Hi as [Hi|Hi]; [|right; apply elem_of_cons; by right].
    rewrite Hu in Hi. destruct (decide (last_id s = i)) as [<-|].
    + right. apply elem_of_cons. by left.
    + left. by rewrite lookup_insert_ne in Hi.
  - destruct Hi as [Hi|Hi]; [|by right].
    destruct H as [_ [Hu | [(k & w & d & Hk & Hu) | (k & Hu)]]];
      rewrite Hu in Hi; left.
    + done.
    + destruct (decide (k = i)) as [->|];
        [by eexists | by rewrite lookup_insert_ne in Hi].
    + destruct (decide (k = i)) as [->|];
        [ rewrite lookup_delete_eq in Hi; by destruct Hi
        | by rewrite lookup_delete_ne in Hi ].
Qed.

(** ** Identifiers *)

(** C4: the counter starts at 1; along every run the ids returned by the
    successful creations are strictly increasing and at least 1, every
    stored user sits under an id that a creation of the run returned; a
    further successful [create] returns the counter's value, which is
    above every id returned so far and is not in use, and advances the
    counter; a [create] refused for its e-mail (409) advances the counter
    all the same and stores nothing. *)
Theorem ids_single_counter (ops : list op) :
  let s := run ops UserController.init in
  last_id UserController.init = 1
  /\ StronglySorted Z.lt (created_ids ops UserController.init)
  /\ Forall (fun i => 1 <= i < last_id s) (created_ids ops UserController.init)
  /\ (forall i u, users s !! i = Some u ->
        id u = i /\ i ∈ created_ids ops UserController.init)
  /\ (forall data s' ref,
        UserController.create data s = (s', Ok ref) ->
        ref_id ref = last_id s
        /\ last_id s' = last_id s + 1
        /\ Forall (fun i => i < ref_id ref) (created_ids ops UserController.init)
        /\ users s !! ref_id ref = None
        /\ is_Some (users s' !! ref_id ref))
  /\ (forall data s' m,
        UserController.create data s = (s', Raise (HTTPError 409 m)) ->
        last_id s' = last_id s + 1 /\ users s' = users s
        /\ emails s' = emails s).
Proof.
  intros s.
  destruct (created_ids_sorted ops UserController.init) as [Hall Hsorted].
  pose proof (run_ids_wf ops _ init_ids_wf) as [Hone Hwf].
  fold s in Hall, Hone, Hwf.
  split; [reflexivity|]. split; [exact Hsorted|]. split; [exact Hall|].
  split; [|split].
  - intros i u Hi. split; [by apply (Hwf i u)|].
    destruct (stored_created ops UserController.init i) as [[w Hw]|Hin].
    + by exists u.
    + simpl in Hw. by rewrite lookup_empty in Hw.
    + exact Hin.
  - intros data s' ref Hc.
    apply create_ok in Hc as (u & -> & Hid & Hl & Hu). simpl.
    rewrite Hid. split; [done|]. split; [done|]. split; [|split].
    + eapply Forall_impl; [exact Hall|]. simpl. intros; lia.
    + destruct (users s !! last_id s) as [w|] eqn:Hw; [|done].
      apply Hwf in Hw. lia.
    + rewrite Hu, lookup_insert_eq. by eexists.
  - intros data s' m Hc. by apply create_conflict in Hc.
Qed.

Lemma ids_single_counter_witness :
  let ops := [Create alice; Delete "1"; Create bob] in
  let s := run ops UserController.init in
  (users s !! 2 = Some (mkUser 2 (VStr "B") (VStr "b@x.com") (VInt 41) (VStr "female"))
   /\ 2 ∈ created_ids ops UserController.init)
  /\ (exists s' ref,
        UserController.create alice s = (s', Ok ref)
        /\ ref_id ref = 3 /\ last_id s' = 4
        /\ Forall (fun i => i < 3) (created_ids ops UserController.init))
  /\ (exists s' m,
        UserController.create bob s = (s', Raise (HTTPError 409 m))
        /\ last_id s' = 4 /\ users s' = users s /\ emails s' = emails s).
Proof.
  intros ops s.
  destruct (ids_single_counter ops) as (_ & _ & _ & Hstored & Hok & Hconflict).
  fold s in Hstored, Hok, Hconflict.
  split; [|split].
  - split; [vm_compute; reflexivity|].
    apply (Hstored 2 (mkUser 2 (VStr "B") (VStr "b@x.com") (VInt 41) (VStr "female"))).
    vm_compute. reflexivity.
  - exists (UserController.create alice s).1,
           (mkUserRef 3 (VStr "A") "/users/3").
    assert (Hc : UserController.create alice s =
                 ((UserController.create alice s).1,
                  Ok (mkUserRef 3 (VStr "A") "/users/3")))
      by (vm_compute; reflexivity).
    destruct (Hok _ _ _ Hc) as (Hid & Hl & Hall & _).
    split; [exact Hc|]. split; [reflexivity|].
    split; [rewrite Hl; vm_compute; reflexivity | exact Hall].
  - exists (UserController.create bob s).1, (Text "Email is not unique").
    assert (Hc : UserController.create bob s =
                 ((UserController.create bob s).1,
                  Raise (HTTPError 409 (Text "Email is not unique"))))
      by (vm_compute; reflexivity).
    destruct (Hconflict _ _ _ Hc) as (Hl & Hu & He).
    split; [exact Hc|].
    split; [rewrite Hl; vm_compute; reflexivity|].
    split; [exact Hu | exact He].
Defined.

(** ** The listing is complete and sorted *)

Lemma Forall2_ids (s : state) (ks : list Z) (l : list User) :
  ids_wf s ->
  Forall2 (fun k u => users s !! k = Some u) ks l -> id <$> l = ks.
Proof.
  intros [_ Hwf]. induction 1 as [|k u ks l Hk _ IH]; [reflexivity|].
  simpl. f_equal; [by apply (Hwf k u) | exact IH].
Qed.

(** C8: in every state [list] returns, without raising and without
    changing anything, the stored [User] records themselves, each once,
    in ascending order of the keys they are stored under; in every state
    a run can reach, that is the ascending order of the users' ids. After
    creating three users and deleting the second, the listing is the
    first and the third user. *)
Theorem list_all_sorted :
  (forall s, exists l ks,
      UserController.list s = (s, Ok l)
      /\ l ≡ₚ (map_to_list (users s)).*2
      /\ ks ≡ₚ (map_to_list (users s)).*1
      /\ StronglySorted Z.lt ks
      /\ Forall2 (fun k u => users s !! k = Some u) ks l)
  /\ (forall ops, exists l,
      UserController.list (run ops UserController.init)
        = (run ops UserController.init, Ok l)
      /\ l ≡ₚ (map_to_list (users (run ops UserController.init))).*2
      /\ StronglySorted Z.lt (id <$> l))
  /\ (UserController.list
        (run [Create alice; Create bob; Create carol; Delete "2"]
           UserController.init)).2
      = Ok [user1; user3].
Proof.
  assert (Hany : forall s, exists l ks,
      UserController.list s = (s, Ok l)
      /\ l ≡ₚ (map_to_list (users s)).*2
      /\ ks ≡ₚ (map_to_list (users s)).*1
      /\ StronglySorted Z.lt ks
      /\ Forall2 (fun k u => users s !! k = Some u) ks l).
  { intros s. destruct (list_keys s) as (Hperm & Hsorted & Hsome).
    eexists _, _. split; [apply list_unfold|].
    split; [apply list_values|]. split; [exact Hperm|].
    split; [exact Hsorted|]. by apply omap_lookup_Forall2. }
  split; [exact Hany|]. split; [|vm_compute; reflexivity].
  intros ops.
  destruct (Hany (run ops UserController.init))
    as (l & ks & Hlist & Hperm & _ & Hsorted & Hall).
  exists l. split; [exact Hlist|]. split; [exact Hperm|].
  rewrite (Forall2_ids (run ops UserController.init) ks l);
    [exact Hsorted | | exact Hall].
  apply run_ids_wf, init_ids_wf.
Qed.

(** ** Validation *)

Lemma sys_maxint_val : sys_maxint = 9223372036854775807.
Proof. reflexivity. Qed.

Lemma age_accepts (v : value) :
  isinstance v int = true /\ UserSchema.age_pred v = true <->
  (exists z, v = VInt z /\ 0 < z < 100) \/ v = VBool true.
Proof.
  split.
  - intros [Hi Hp]. destruct v as [|b|z| | | |]; try discriminate.
    + right. destruct b; [reflexivity | discriminate].
    + left. exists z. split; [reflexivity|].
      unfold UserSchema.age_pred in Hp.
      apply andb_true_iff in Hp as [H1 H2].
      apply bool_decide_eq_true in H1, H2. lia.
  - intros [(z & -> & Hz) | ->]; [|split; reflexivity].
    split.
    + unfold isinstance, type_of.
      rewrite bool_decide_eq_true_2; [reflexivity|].
      rewrite sys_maxint_val. lia.
    + unfold UserSchema.age_pred.
      rewrite !bool_decide_eq_true_2 by lia. reflexivity.
Qed.

Lemma text_accepts (v : value) :
  isinstance v basestring = true /\ UserSchema.text_pred v = true <->
  exists t, v = VStr t /\ t <> "".
Proof.
  split.
  - intros [Hi Hp]. destruct v as [| |z| |t| |]; try discriminate.
    exists t. split; [reflexivity|]. simpl in Hp.
    apply negb_true_iff, bool_decide_eq_false in Hp. exact Hp.
  - intros (t & -> & Ht). split; [reflexivity|]. simpl.
    apply negb_true_iff, bool_decide_eq_false. exact Ht.
Qed.

Lemma value_eqb_str (v : value) (t : string) :
  value_eqb v (VStr t) = true <-> v = VStr t.
Proof.
  destruct v; simpl; try (split; discriminate).
  rewrite bool_decide_eq_true. split; congruence.
Qed.

Lemma sex_accepts (v : value) :
  isinstance v basestring = true /\ UserSchema.sex_pred v = true <->
  v = VStr "male" \/ v = VStr "female".
Proof.
  unfold UserSchema.sex_pred. rewrite orb_true_iff, !value_eqb_str. split.
  - intros [_ H]. exact H.
  - intros H. split; [|exact H]. destruct H as [-> | ->]; reflexivity.
Qed.

Lemma check_value_ok (k : string) (v : value) :
  UserSchema.check_value k v = Ok tt <-> field_ok k v.
Proof.
  unfold UserSchema.check_value, UserSchema.schema, field_ok.
  repeat case_bool_decide; subst.
  - rewrite <- age_accepts.
    destruct (isinstance v int), (UserSchema.age_pred v); simpl;
      split; try discriminate; try (intros _; left; done);
      intros [[_ [? ?]] | [[[?|?] _] | [? _]]]; done.
  - rewrite <- text_accepts.
    destruct (isinstance v basestring), (UserSchema.text_pred v); simpl;
      split; try discriminate; try (intros _; right; left; split; [by left|done]);
      intros [[? _] | [[_ [? ?]] | [? _]]]; done.
  - rewrite <- text_accepts.
    destruct (isinstance v basestring), (UserSchema.text_pred v); simpl;
      split; try discriminate; try (intros _; right; left; split; [by right|done]);
      intros [[? _] | [[_ [? ?]] | [? _]]]; done.
  - rewrite <- sex_accepts.
    destruct (isinstance v basestring), (UserSchema.sex_pred v); simpl;
      split; try discriminate; try (intros _; right; right; done);
      intros [[? _] | [[[?|?] _] | [_ [? ?]]]]; done.
  - split; [case_match; discriminate|].
    intros [[? _] | [[[?|?] _] | [? _]]]; done.
Qed.

Lemma validate_items_ok (d : pydict) :
  UserSchema.validate_items d = Ok tt <->
  forall k v, (k, v) ∈ d -> field_ok k v.
Proof.
  induction d as [|[k v] d IH]; simpl.
  - split; [|reflexivity]. intros _ k v Hin. by apply elem_of_nil in Hin.
  - unfold mbind, result_bind.
    destruct (UserSchema.check_value k v) as [[]|e] eqn:Hk.
    + apply check_value_ok in Hk. rewrite IH. split.
      * intros H k' v' Hin. apply elem_of_cons in Hin as [[= -> ->]|Hin]; auto.
      * intros H k' v' Hin. apply H, elem_of_cons. by right.
    + split; [discriminate|]. intros H.
      assert (Hok : field_ok k v) by (apply H, elem_of_cons; by left).
      apply check_value_ok in Hok. congruence.
Qed.

Lemma check_value_raises_400 (k : string) (v : value) (e : exn) :
  Text.is_ascii k = true ->
  UserSchema.check_value k v = Raise e -> exists m, e = HTTPError 400 m.
Proof.
  unfold UserSchema.check_value. intros Hk H.
  repeat (case_match; simplify_eq/=; try done); by eexists.
Qed.

Lemma validate_items_raises_400 (d : pydict) (e : exn) :
  (forall k, k ∈ keys d -> Text.is_ascii k = true) ->
  UserSchema.validate_items d = Raise e -> exists m, e = HTTPError 400 m.
Proof.
  unfold keys. induction d as [|[k v] d IH]; simpl; intros Hd H; [discriminate|].
  unfold mbind, result_bind in H.
  destruct (UserSchema.check_value k v) as [[]|e'] eqn:Hk.
  - apply IH; [|exact H]. intros k' Hin. apply Hd, elem_of_cons. by right.
  - injection H as ->. eapply check_value_raises_400; [|exact Hk].
    apply Hd, elem_of_cons. by left.
Qed.

(** C5 as the spec has it fails where it says that an age which is not
    an integer is refused: the JSON value [true] is a [bool], which is
    an instance of [int] and compares as 1, so it is accepted. *)
Lemma age_true_not_refused :
  ~ (forall v, UserSchema.validate (VDict [("age", v)]) = Ok tt -> is_integer v).
Proof.
  intros H. destruct (H (VBool true)) as [z Hz]; [reflexivity | discriminate].
Qed.

(** C5, amended: validation of a mapping succeeds exactly when every
    supplied field is one of the four of the schema and is acceptable for
    it: [age] an integer with 0 < age < 100 or the boolean true, [name]
    and [email] non-empty text, [sex] the text male or female.  When the
    field names are ASCII, every failure is an [HTTPError] 400.  Ages 0
    and 100 and a float age are refused with 400; ages 1 and 99 are
    accepted. *)
Theorem validate_iff_fields_ok (d : pydict) :
  (UserSchema.validate (VDict d) = Ok tt <->
   forall k v, (k, v) ∈ d -> field_ok k v)
  /\ ((forall k, k ∈ keys d -> Text.is_ascii k = true) ->
      forall e, UserSchema.validate (VDict d) = Raise e ->
                exists m, e = HTTPError 400 m)
  /\ (forall v, v ∈ [VInt 0; VInt 100; VFloat "30.5"] ->
      exists m, UserSchema.validate (VDict [("age", v)]) = Raise (HTTPError 400 m))
  /\ (forall v, v ∈ [VInt 1; VInt 99] ->
      UserSchema.validate (VDict [("age", v)]) = Ok tt).
Proof.
  split; [apply validate_items_ok|]. split; [|split].
  - intros Hd e He. by apply (validate_items_raises_400 d).
  - intros v Hv. repeat (apply elem_of_cons in Hv as [->|Hv]; [by eexists|]).
    by apply elem_of_nil in Hv.
  - intros v Hv. repeat (apply elem_of_cons in Hv as [->|Hv]; [done|]).
    by apply elem_of_nil in Hv.
Qed.

Lemma validate_iff_fields_ok_witness :
  (UserSchema.validate alice = Ok tt)
  /\ (exists m,
        UserSchema.validate (VDict [("name", VStr "A"); ("sex", VStr "other")])
        = Raise (HTTPError 400 m))
  /\ (exists m, UserSchema.validate (VDict [("age", VInt 100)])
               = Raise (HTTPError 400 m))
  /\ UserSchema.validate (VDict [("age", VInt 99)]) = Ok tt.
Proof.
  split; [|split; [|split]].
  - destruct (validate_iff_fields_ok
                [("name", VStr "A"); ("email", VStr "a@x.com");
                 ("age", VInt 30); ("sex", VStr "male")]) as [[_ Hok] _].
    apply Hok. intros k v Hin. apply list_elem_of_In in Hin. simpl in Hin.
    unfold field_ok.
    destruct Hin as [[= <- <-] | [[= <- <-] | [[= <- <-] | [[= <- <-] | []]]]].
    + right. left. split; [by left|]. by exists "A".
    + right. left. split; [by right|]. by exists "a@x.com".
    + left. split; [done|]. left. exists 30. split; [done|lia].
    + right. right. split; [done|]. by left.
  - destruct (validate_iff_fields_ok
                [("name", VStr "A"); ("sex", VStr "other")])
      as (_ & H400 & _).
    destruct (H400) with (e := HTTPError 400 (Text "sex does has wrong value"))
      as [m Hm].
    + intros k Hk. apply list_elem_of_In in Hk. simpl in Hk.
      destruct Hk as [<- | [<- | []]]; reflexivity.
    + reflexivity.
    + exists m. rewrite <- Hm. reflexivity.
  - destruct (validate_iff_fields_ok []) as (_ & _ & Hbad & _).
    apply Hbad. apply list_elem_of_In. simpl. tauto.
  - destruct (validate_iff_fields_ok []) as (_ & _ & _ & Hgood).
    apply Hgood. apply list_elem_of_In. simpl. tauto.
Defined.

(** ** The e-mail index and an update without e-mail *)

(** C2, as the code runs it: after [create] of a user with e-mail
    a@x.com, an [update] of that user whose fields hold a new name and
    no e-mail succeeds and leaves the user's e-mail in place, but removes
    that e-mail from the index: [data.get('email')] is [None] there and
    [__update_email] takes it for the removal of the old e-mail. *)
Theorem update_without_email_empties_index :
  let s1 := (UserController.create alice UserController.init).1 in
  let r := UserController.update "1" rename_to_B s1 in
  emails s1 = [VStr "a@x.com"]
  /\ r.2 = Ok user1_renamed
  /\ users r.1 !! 1 = Some user1_renamed
  /\ emails r.1 = [].
Proof. repeat split. Qed.

(** C1, as the code runs it: after the update above the index is empty
    while user 1 still has e-mail a@x.com, so the index is not the set of
    stored e-mails; a second [create] with that e-mail is then accepted,
    and users 1 and 2 share it. *)
Theorem email_index_broken_by_update :
  let s2 := run [Create alice; Update "1" rename_to_B] UserController.init in
  let s3 := run [Create alice; Update "1" rename_to_B; Create alice]
              UserController.init in
  (emails s2 = [] /\ users s2 !! 1 = Some user1_renamed /\ ~ index_exact s2)
  /\ (users s3 !! 1 = Some user1_renamed
      /\ users s3 !! 2 = Some (mkUser 2 (VStr "A") (VStr "a@x.com")
                                  (VInt 30) (VStr "male"))
      /\ ~ emails_unique s3).
Proof.
  intros s2 s3.
  assert (H21 : users s2 !! 1 = Some user1_renamed) by (vm_compute; reflexivity).
  assert (H31 : users s3 !! 1 = Some user1_renamed) by (vm_compute; reflexivity).
  assert (H32 : users s3 !! 2 = Some (mkUser 2 (VStr "A") (VStr "a@x.com")
                                        (VInt 30) (VStr "male")))
    by (vm_compute; reflexivity).
  split; [split; [vm_compute; reflexivity | split; [exact H21|]] |
          split; [exact H31 | split; [exact H32|]]].
  - intros Hexact.
    assert (Hin : VStr "a@x.com" ∈ emails s2).
    { apply Hexact. exists 1, user1_renamed. split; [exact H21 | reflexivity]. }
    vm_compute in Hin. by apply elem_of_nil in Hin.
  - intros Huniq.
    specialize (Huniq 1 2 _ _ H31 H32 eq_refl). discriminate.
Qed.

(** ** The cases of [update] *)

Lemma value_eqb_str_l (t : string) (v : value) :
  value_eqb (VStr t) v = true <-> v = VStr t.
Proof.
  destruct v; simpl; try (split; discriminate).
  rewrite bool_decide_eq_true. split; congruence.
Qed.

Lemma value_eqb_str_ne (t : string) (v : value) :
  v <> VStr t -> value_eqb (VStr t) v = false.
Proof.
  intros Hne. apply not_true_is_false. intros H.
  by apply value_eqb_str_l in H.
Qed.

Lemma mem_str (t : string) (l : list value) :
  UserController.mem (VStr t) l = true <-> VStr t ∈ l.
Proof.
  unfold UserController.mem. rewrite existsb_exists. split.
  - intros (v & Hin & Heq). apply value_eqb_str_l in Heq as ->.
    by apply list_elem_of_In.
  - intros Hin. exists (VStr t). split; [by apply list_elem_of_In|].
    by apply value_eqb_str_l.
Qed.

Lemma dict_get_elem (k : string) (v : value) (d : pydict) :
  dict_get k d = Some v -> (k, v) ∈ d.
Proof.
  induction d as [|[k' v'] d IH]; simpl; [discriminate|].
  case_bool_decide as Hk.
  - intros [= ->]. subst. apply elem_of_cons. by left.
  - intros H. apply elem_of_cons. right. by apply IH.
Qed.

(** A validated e-mail is a non-empty text. *)
Lemma validated_email (d : pydict) (e : value) :
  UserSchema.validate (VDict d) = Ok tt -> dict_get "email" d = Some e ->
  exists t, e = VStr t /\ t <> "".
Proof.
  intros Hval He. apply dict_get_elem in He.
  simpl in Hval. rewrite validate_items_ok in Hval. specialize (Hval _ _ He).
  destruct Hval as [[? _] | [[_ Ht] | [? _]]]; done.
Qed.

(** The update names the e-mail the user already has: it succeeds and
    the index stays as it is. *)
Lemma update_same_email (s : state) (i : string) (n : Z) (u : User) (d : pydict) :
  Text.int_of_str i = Some n -> users s !! n = Some u ->
  UserSchema.validate (VDict d) = Ok tt ->
  dict_get "email" d = Some (email u) ->
  UserController.update i (VDict d) s =
    (mkState (<[n := UserM.update u d]> (users s)) (last_id s) (emails s),
     Ok (UserM.update u d)).
Proof.
  intros Hi Hu Hval He.
  destruct (validated_email d _ Hval He) as (t & Ht & _).
  rewrite update_unfold, get_at_unfold, Hi, Hu, Hval. cbv zeta.
  rewrite He. simpl default. rewrite update_email_unfold.
  rewrite Ht. rewrite (proj2 (value_eqb_str_l t (VStr t)) eq_refl).
  reflexivity.
Qed.

(** The update names another e-mail which the index holds: 409, and
    nothing changes. *)
Lemma update_new_email_conflict (s : state) (i : string) (n : Z) (u : User)
    (d : pydict) (e : value) :
  Text.int_of_str i = Some n -> users s !! n = Some u ->
  UserSchema.validate (VDict d) = Ok tt ->
  dict_get "email" d = Some e -> e <> email u -> e ∈ emails s ->
  UserController.update i (VDict d) s =
    (s, Raise (HTTPError 409 (Text "Email is not unique"))).
Proof.
  intros Hi Hu Hval He Hne Hin.
  destruct (validated_email d _ Hval He) as (t & -> & _).
  rewrite update_unfold, get_at_unfold, Hi, Hu, Hval. cbv zeta.
  rewrite He. simpl default. rewrite update_email_unfold.
  rewrite value_eqb_str_ne by congruence.
  simpl negb. cbv iota.
  rewrite (proj2 (mem_str t (emails s)) Hin). reflexivity.
Qed.

(** The update names another e-mail which the index does not hold: the
    new e-mail enters the index and the old one leaves it. *)
Lemma update_new_email_swap (s : state) (i : string) (n : Z) (u : User)
    (d : pydict) (e : value) (t0 : string) :
  Text.int_of_str i = Some n -> users s !! n = Some u ->
  UserSchema.validate (VDict d) = Ok tt ->
  dict_get "email" d = Some e -> email u = VStr t0 -> e <> email u ->
  e ∉ emails s -> email u ∈ emails s ->
  UserController.update i (VDict d) s =
    (mkState (<[n := UserM.update u d]> (users s)) (last_id s)
       (UserController.discard (email u) (emails s ++ [e])),
     Ok (UserM.update u d)).
Proof.
  intros Hi Hu Hval He Ht0 Hne Hnin Hin.
  destruct (validated_email d _ Hval He) as (t & -> & _).
  rewrite update_unfold, get_at_unfold, Hi, Hu, Hval. cbv zeta.
  rewrite He. simpl default. rewrite update_email_unfold.
  rewrite value_eqb_str_ne by congruence.
  simpl negb. cbv iota.
  assert (Hm : UserController.mem (VStr t) (emails s) = false).
  { apply not_true_is_false. intros H. by apply mem_str in H. }
  rewrite Hm. rewrite Ht0 in *. simpl negb. cbv iota.
  unfold UserController.set_emails, UserController.add. simpl emails.
  rewrite Hm.
  assert (Hm' : UserController.mem (VStr t0) (emails s ++ [VStr t]) = true).
  { apply mem_str, elem_of_app. by left. }
  rewrite Hm'. reflexivity.
Qed.

(** The update names no e-mail: the user's e-mail leaves the index. *)
Lemma update_no_email (s : state) (i : string) (n : Z) (u : User)
    (d : pydict) (t0 : string) :
  Text.int_of_str i = Some n -> users s !! n = Some u ->
  UserSchema.validate (VDict d) = Ok tt ->
  dict_get "email" d = None -> email u = VStr t0 -> email u ∈ emails s ->
  UserController.update i (VDict d) s =
    (mkState (<[n := UserM.update u d]> (users s)) (last_id s)
       (UserController.discard (email u) (emails s)),
     Ok (UserM.update u d)).
Proof.
  intros Hi Hu Hval He Ht0 Hin.
  rewrite update_unfold, get_at_unfold, Hi, Hu, Hval. cbv zeta.
  rewrite He. simpl default. rewrite update_email_unfold.
  rewrite Ht0 in *. simpl value_eqb. cbv iota. simpl negb. cbv iota.
  rewrite (proj2 (mem_str t0 (emails s)) Hin). reflexivity.
Qed.

(** ** Field-by-field overwrite *)

Lemma update_cons (u : User) (k : string) (v : value) (d : pydict) :
  UserM.update u ((k, v) :: d) = UserM.update (UserM.setattr u k v) d.
Proof. reflexivity. Qed.

Lemma update_field (f : User -> value) (kf : string) :
  (forall u v, f (UserM.setattr u kf v) = v) ->
  (forall u k v, k <> kf -> f (UserM.setattr u k v) = f u) ->
  forall d u, NoDup (keys d) ->
    f (UserM.update u d) = default (f u) (dict_get kf d).
Proof.
  intros Hset Hother. unfold keys.
  induction d as [|[k v] d IH]; intros u Hnd; [reflexivity|].
  simpl in Hnd. apply NoDup_cons in Hnd as [Hk Hnd].
  rewrite update_cons, IH by exact Hnd. simpl dict_get.
  case_bool_decide as Hkf.
  - subst k. rewrite (proj2 (dict_get_None kf d) Hk). simpl. apply Hset.
  - rewrite Hother by exact Hkf. reflexivity.
Qed.

(** After [user.update(d)] each field holds the supplied value if [d]
    supplies one, and its former value otherwise; the id is never
    touched. *)
Lemma update_fields (u : User) (d : pydict) :
  NoDup (keys d) ->
  id (UserM.update u d) = id u
  /\ name (UserM.update u d) = default (name u) (dict_get "name" d)
  /\ email (UserM.update u d) = default (email u) (dict_get "email" d)
  /\ age (UserM.update u d) = default (age u) (dict_get "age" d)
  /\ sex (UserM.update u d) = default (sex u) (dict_get "sex" d).
Proof.
  intros Hnd. split; [apply update_id|].
  repeat split; apply update_field; try exact Hnd;
    try (intros; reflexivity);
    intros w k v Hk; unfold UserM.setattr;
    repeat case_bool_decide; subst; try reflexivity; congruence.
Qed.

(** ** The e-mail index along runs whose updates supply the e-mail *)

Lemma elem_of_discard_str (t : string) (x : value) (l : list value) :
  x ∈ UserController.discard (VStr t) l <-> x <> VStr t /\ x ∈ l.
Proof.
  unfold UserController.discard. rewrite list_elem_of_filter.
  split; intros [H Hin]; (split; [|exact Hin]).
  - intros ->. by rewrite (proj2 (value_eqb_str_l t (VStr t)) eq_refl) in H.
  - by apply value_eqb_str_ne.
Qed.

(** A new user under a fresh key with a fresh e-mail. *)
Lemma email_ok_insert_new (s : state) (k l : Z) (u : User) (t : string) :
  email_ok s -> users s !! k = None -> email u = VStr t ->
  VStr t ∉ emails s ->
  email_ok (mkState (<[k := u]> (users s)) l (emails s ++ [VStr t])).
Proof.
  intros (Hnd & Hex & Huniq & Htext) Hk Hu Hfresh.
  split; [|split; [|split]]; simpl.
  - apply NoDup_app. split; [exact Hnd|]. split; [|apply NoDup_singleton].
    intros x Hx Hx'. apply list_elem_of_singleton in Hx'. by subst.
  - intros e. unfold index_exact in Hex. simpl.
    rewrite elem_of_app, list_elem_of_singleton, Hex. split.
    + intros [(i & w & Hi & He) | ->].
      * exists i, w. split; [|exact He].
        rewrite lookup_insert_ne; [exact Hi | congruence].
      * exists k, u. by rewrite lookup_insert_eq.
    + intros (i & w & Hi & He). destruct (decide (k = i)) as [->|Hne].
      * rewrite lookup_insert_eq in Hi. injection Hi as <-. right. congruence.
      * rewrite lookup_insert_ne in Hi by done. left. by exists i, w.
  - intros i j w1 w2. simpl. intros Hi Hj He.
    destruct (decide (k = i)) as [Hki|Hki]; destruct (decide (k = j)) as [Hkj|Hkj].
    + congruence.
    + subst i. rewrite lookup_insert_eq in Hi.
      rewrite lookup_insert_ne in Hj by done.
      injection Hi as <-. exfalso. apply Hfresh, Hex.
      exists j, w2. split; [exact Hj | congruence].
    + subst j. rewrite lookup_insert_eq in Hj.
      rewrite lookup_insert_ne in Hi by done.
      injection Hj as <-. exfalso. apply Hfresh, Hex.
      exists i, w1. split; [exact Hi | congruence].
    + rewrite lookup_insert_ne in Hi, Hj by done.
      by apply (Huniq i j w1 w2).
  - intros i w. simpl. intros Hi. destruct (decide (k = i)) as [->|Hne].
    + rewrite lookup_insert_eq in Hi. injection Hi as <-. by exists t.
    + rewrite lookup_insert_ne in Hi by done. by apply (Htext i w).
Qed.

(** A user leaves together with its e-mail. *)
Lemma email_ok_delete (s : state) (k : Z) (u : User) (t : string) :
  email_ok s -> users s !! k = Some u -> email u = VStr t ->
  email_ok (mkState (base.delete k (users s)) (last_id s)
              (UserController.discard (VStr t) (emails s))).
Proof.
  intros (Hnd & Hex & Huniq & Htext) Hk Hu.
  split; [|split; [|split]]; simpl.
  - by apply NoDup_filter.
  - intros e. simpl. rewrite elem_of_discard_str, (Hex e). split.
    + intros (Hne & i & w & Hi & He). exists i, w. split; [|exact He].
      rewrite lookup_delete_ne; [exact Hi|]. intros ->. congruence.
    + intros (i & w & Hi & He). destruct (decide (k = i)) as [->|Hki].
      * by rewrite lookup_delete_eq in Hi.
      * rewrite lookup_delete_ne in Hi by done. split; [|by exists i, w].
        intros ->. apply Hki. apply (Huniq k i u w); congruence.
  - intros i j w1 w2. simpl. intros Hi Hj.
    apply lookup_delete_Some in Hi as [_ Hi], Hj as [_ Hj].
    by apply Huniq.
  - intros i w. simpl. intros Hi.
    apply lookup_delete_Some in Hi as [_ Hi]. by apply (Htext i w).
Qed.

(** A stored user is replaced by one with the same e-mail. *)
Lemma email_ok_insert_same (s : state) (k : Z) (u u' : User) :
  email_ok s -> users s !! k = Some u -> email u' = email u ->
  email_ok (mkState (<[k := u']> (users s)) (last_id s) (emails s)).
Proof.
  intros (Hnd & Hex & Huniq & Htext) Hk Hu.
  assert (Hlook : forall i w, <[k := u']> (users s) !! i = Some w ->
            exists w0, users s !! i = Some w0 /\ email w = email w0).
  { intros i w Hi. destruct (decide (k = i)) as [->|Hne].
    - rewrite lookup_insert_eq in Hi. injection Hi as <-. by exists u.
    - rewrite lookup_insert_ne in Hi by done. by exists w. }
  split; [exact Hnd|]. split; [|split]; simpl.
  - intros e. simpl. rewrite (Hex e). split.
    + intros (i & w & Hi & He). destruct (decide (k = i)) as [->|Hne].
      * exists i, u'. rewrite lookup_insert_eq. split; [done|]. congruence.
      * exists i, w. by rewrite lookup_insert_ne.
    + intros (i & w & Hi & He). apply Hlook in Hi as (w0 & Hi & Hw).
      exists i, w0. split; [done|congruence].
  - intros i j w1 w2. simpl. intros Hi Hj He.
    apply Hlook in Hi as (v1 & Hi & H1), Hj as (v2 & Hj & H2).
    apply (Huniq i j v1 v2); congruence.
  - intros i w. simpl. intros Hi. apply Hlook in Hi as (w0 & Hi & Hw).
    rewrite Hw. by apply (Htext i w0).
Qed.

(** A stored user changes its e-mail to a fresh one. *)
Lemma email_ok_insert_swap (s : state) (k : Z) (u u' : User) (t t' : string) :
  email_ok s -> users s !! k = Some u -> email u = VStr t ->
  email u' = VStr t' -> VStr t' ∉ emails s ->
  email_ok (mkState (<[k := u']> (users s)) (last_id s)
              (UserController.discard (VStr t) (emails s ++ [VStr t']))).
Proof.
  intros Hok Hk Hu Hu' Hfresh.
  assert (Hne : VStr t' <> VStr t).
  { intros Heq. apply Hfresh. rewrite Heq, <- Hu.
    destruct Hok as (_ & Hex & _). apply Hex. by exists k, u. }
  pose proof (email_ok_delete s k u t Hok Hk Hu) as Hdel.
  eapply (email_ok_insert_new _ k (last_id s) u' t') in Hdel;
    [ | simpl; apply lookup_delete_eq | exact Hu'
      | simpl; rewrite elem_of_discard_str; tauto ].
  simpl in Hdel. rewrite insert_delete_eq in Hdel.
  unfold UserController.discard in *. rewrite filter_app.
  rewrite (filter_cons_True _ (VStr t') []), filter_nil; [exact Hdel|].
  by apply value_eqb_str_ne.
Qed.

Lemma init_email (id_ : Z) (d : pydict) (u : User) :
  UserM.init id_ d = Ok u -> exists e, ("email", e) ∈ d /\ email u = e.
Proof.
  unfold UserM.init. intros H.
  destruct (dict_get "email" (filter _ d)) as [e|] eqn:He.
  - exists e. split.
    + apply dict_get_elem, list_elem_of_filter in He. tauto.
    + repeat (case_match; simplify_eq/=; try done).
  - repeat (case_match; simplify_eq/=; try done).
Qed.

Lemma create_ok_email (data : value) (s s' : state) (ref : UserRef) :
  UserController.create data s = (s', Ok ref) ->
  exists u t, email u = VStr t /\ (VStr t ∉ emails s)
    /\ s' = mkState (<[last_id s := u]> (users s)) (last_id s + 1)
              (emails s ++ [VStr t]).
Proof.
  rewrite create_unfold. intros H.
  destruct (UserSchema.validate data) eqn:Hval; [|discriminate].
  cbv zeta in H.
  destruct data as [| | | | | |d]; try discriminate.
  destruct (UserM.init (last_id s) d) as [u|] eqn:Hinit; [|discriminate].
  destruct (init_email _ _ _ Hinit) as (e & Hin & He).
  simpl in Hval. destruct a. rewrite validate_items_ok in Hval.
  specialize (Hval _ _ Hin).
  destruct Hval as [[? _] | [[_ (t & -> & _)] | [? _]]]; try done.
  exists u, t. split; [exact He|].
  rewrite update_email_unfold, He in H. simpl in H.
  destruct (UserController.mem (VStr t) (emails s)) eqn:Hm; [discriminate|].
  split.
  - intros Hin'. apply mem_str in Hin'. congruence.
  - injection H as <- _. unfold UserController.set_users,
      UserController.set_emails, UserController.add. simpl. by rewrite Hm.
Qed.

Lemma create_raise_emails (data : value) (s s' : state) (e : exn) :
  UserController.create data s = (s', Raise e) -> emails s' = emails s.
Proof.
  rewrite create_unfold. intros H.
  destruct (UserSchema.validate data); [|by simplify_eq].
  cbv zeta in H.
  destruct (match data with VDict d => UserM.init (last_id s) d
                       | _ => Raise (Builtin TypeError) end) as [u|];
    [|by simplify_eq].
  rewrite update_email_unfold in H.
  repeat (case_match; simplify_eq/=; try done).
Qed.

(** Whether [email_ok] holds depends on the users and the index only. *)
Lemma email_ok_ext (s s' : state) :
  users s' = users s -> emails s' = emails s -> email_ok s -> email_ok s'.
Proof.
  unfold email_ok, index_exact, emails_unique, emails_text.
  intros -> ->. tauto.
Qed.

Lemma step_email_ok (o : op) (s : state) :
  supplies_email o -> ids_wf s -> email_ok s -> email_ok (step o s).1.
Proof.
  intros Ho [_ Hwf] Hok.
  destruct o as [data|i data|i|i|]; unfold step; rewrite returning_unfold.
  - (* create *)
    destruct (UserController.create data s) as [s' [ref|e]] eqn:H; simpl.
    + apply create_ok_email in H as (u & t & Hu & Hfresh & ->).
      apply email_ok_insert_new; try done.
      destruct (users s !! last_id s) as [w|] eqn:Hw; [|done].
      apply Hwf in Hw. lia.
    + eapply email_ok_ext; [| |exact Hok].
      * by apply create_raise in H as [? _].
      * by apply create_raise_emails in H.
  - (* update *)
    destruct (Text.int_of_str i) as [n|] eqn:Hi;
      [|rewrite update_unfold, get_at_unfold, Hi; exact Hok].
    destruct (users s !! n) as [u|] eqn:Hu;
      [|rewrite update_unfold, get_at_unfold, Hi, Hu; exact Hok].
    destruct (UserSchema.validate data) as [[]|] eqn:Hval;
      [|rewrite update_unfold, get_at_unfold, Hi, Hu, Hval; exact Hok].
    destruct data as [| | | | | |d]; try discriminate.
    destruct Ho as [Hnd Hemail].
    destruct (dict_get "email" d) as [e|] eqn:He;
      [|by apply dict_get_None in He].
    destruct (validated_email d e Hval He) as (t' & -> & _).
    pose proof Hok as (Hnd' & Hex & Huniq & Htext).
    destruct (Htext n u Hu) as [t Ht].
    destruct (update_fields u d Hnd) as (_ & _ & Hmail & _).
    rewrite He in Hmail. simpl in Hmail.
    assert (Hold : email u ∈ emails s) by (apply Hex; by exists n, u).
    destruct (decide (t' = t)) as [->|Hne].
    + rewrite (update_same_email s i n u d Hi Hu Hval) by congruence.
      simpl. apply (email_ok_insert_same s n u); [done..|congruence].
    + destruct (UserController.mem (VStr t') (emails s)) eqn:Hm.
      * apply mem_str in Hm as Hin.
        rewrite (update_new_email_conflict s i n u d (VStr t') Hi Hu Hval He)
          by (done || congruence).
        exact Hok.
      * assert (Hnin : VStr t' ∉ emails s)
          by (intros Hin; apply mem_str in Hin; congruence).
        rewrite (update_new_email_swap s i n u d (VStr t') t Hi Hu Hval He Ht)
          by (done || congruence).
        simpl. rewrite Ht.
        by apply (email_ok_insert_swap s n u _ t t').
  - (* delete *)
    rewrite delete_unfold, get_unfold.
    destruct (Text.int_of_str i) as [n|] eqn:Hi; [|exact Hok].
    destruct (users s !! n) as [u|] eqn:Hu; [|exact Hok].
    pose proof Hok as (Hnd' & Hex & Huniq & Htext).
    destruct (Htext n u Hu) as [t Ht].
    assert (Hold : VStr t ∈ emails s).
    { rewrite <- Ht. apply Hex. by exists n, u. }
    destruct (Hwf n u Hu) as [Hid _].
    rewrite update_email_unfold, Ht. simpl value_eqb. cbv iota.
    simpl negb. cbv iota.
    rewrite (proj2 (mem_str t (emails s)) Hold).
    simpl users. rewrite Hid, Hu. simpl.
    by apply (email_ok_delete s n u t).
  - (* get *)
    destruct (get_frame s i) as [Hs _].
    destruct (UserController.get i s) as [s' [u|e]]; simpl in *; by subst.
  - exact Hok.
Qed.

(** As long as every update supplies the e-mail, the index is exactly the
    set of stored e-mails and no two users share one: the index goes
    wrong only through an update that supplies no e-mail. *)
Lemma email_invariant_when_updates_supply_email (ops : list op) :
  Forall supplies_email ops ->
  index_exact (run ops UserController.init)
  /\ emails_unique (run ops UserController.init)
  /\ NoDup (emails (run ops UserController.init)).
Proof.
  intros Hops.
  assert (H : forall s, ids_wf s -> email_ok s -> email_ok (run ops s)).
  { induction Hops as [|o ops Ho _ IH]; intros s Hwf Hok; [exact Hok|].
    rewrite run_cons. apply IH; [by apply step_ids_wf|].
    by apply step_email_ok. }
  destruct (H UserController.init init_ids_wf) as (Hnd & Hex & Huniq & _);
    [|by auto].
  split; [apply NoDup_nil_2|]. split; [|split].
  - intros e. simpl. split; [intros He; by apply elem_of_nil in He|].
    intros (i & u & Hi & _). by rewrite lookup_empty in Hi.
  - intros i j u w Hi. simpl in Hi. by rewrite lookup_empty in Hi.
  - intros i u Hi. simpl in Hi. by rewrite lookup_empty in Hi.
Qed.

(** ** Further scenarios *)

Example sex_other_refused :
  UserSchema.validate (VDict [("sex", VStr "other")])
  = Raise (HTTPError 400 (Text "sex does has wrong value")).
Proof. reflexivity. Qed.

Example unknown_field_refused :
  UserSchema.validate (VDict [("name", VStr "A"); ("nick", VStr "a")])
  = Raise (HTTPError 400 (Text "unknown value nick")).
Proof. reflexivity. Qed.

Example duplicate_email_conflict :
  (UserController.create
     (VDict [("name", VStr "Z"); ("email", VStr "a@x.com");
             ("age", VInt 20); ("sex", VStr "female")])
     (run [Create alice] UserController.init)).2
  = Raise (HTTPError 409 (Text "Email is not unique")).
Proof. vm_compute. reflexivity. Qed.

Example delete_then_get_not_found :
  (UserController.get "1" (run [Create alice; Delete "1"] UserController.init)).2
  = Raise (HTTPError 404 (Text "user(1) is not found")).
Proof. vm_compute. reflexivity. Qed.

Example email_reused_id_not :
  (UserController.create alice
     (run [Create alice; Delete "1"] UserController.init)).2
  = Ok (mkUserRef 2 (VStr "A") "/users/2").
Proof. vm_compute. reflexivity. Qed.

(** After the update without e-mail, the user can no longer be deleted:
    [set.remove] does not find the e-mail. *)
Example delete_after_update_without_email :
  (do_DELETE (mkRequest DELETE "/users/1" None None "")
     (run [Create alice; Update "1" rename_to_B] UserController.init)).2
  = mkResponse 500 (Some (JError (StrOf KeyError))).
Proof. vm_compute. reflexivity. Qed.

Example unmatched_route :
  (do_GET (mkRequest GET "/users/1/posts" None None "") UserController.init).2
  = mkResponse 404 (Some (JError (Text "not found"))).
Proof. vm_compute. reflexivity. Qed.

(** An unrecognized field whose name is not ASCII (here the two bytes of
    U+00E9) does not get as far as the 400 error: formatting the message
    raises, and the request is answered 500. *)
Example unknown_field_not_ascii :
  let k := String (ascii_of_nat 195) (String (ascii_of_nat 169) EmptyString) in
  UserSchema.validate (VDict [(k, VInt 1)]) = Raise (Builtin UnicodeEncodeError)
  /\ forall json_loads r,
       command r = POST -> path r = "/users/" ->
       get_data json_loads r = Ok (VDict [(k, VInt 1)]) ->
       (handle json_loads r UserController.init).2
       = mkResponse 500 (Some (JError (StrOf UnicodeEncodeError))).
Proof.
  intros k. split; [reflexivity|].
  intros json_loads r Hc Hp Hdata. unfold handle, do_POST. rewrite Hc, Hp.
  rewrite bool_decide_eq_true_2 by reflexivity.
  unfold process_request, call_with_body. rewrite Hdata. reflexivity.
Qed.

(* ================================================================= *)
(** * Further properties of the code *)

(** ** Decimal ids and [int] *)

Lemma pretty_N_char_digit (d : N) :
  (d < 10)%N ->
  Text.is_digit (pretty_N_char d) = true
  /\ Text.digit (pretty_N_char d) = Z.of_N d
  /\ Text.is_space (pretty_N_char d) = false
  /\ pretty_N_char d <> "/"%char /\ pretty_N_char d <> "-"%char
  /\ pretty_N_char d <> "+"%char.
Proof.
  intros Hd.
  assert (d = 0 \/ d = 1 \/ d = 2 \/ d = 3 \/ d = 4 \/ d = 5 \/ d = 6
          \/ d = 7 \/ d = 8 \/ d = 9)%N as Hcases by lia.
  repeat (destruct Hcases as [-> | Hcases]; [by vm_compute|]).
  subst. by vm_compute.
Qed.

(** Reading back the digits that [pretty] writes. *)
Lemma digits_pretty_N_go (x : N) (s : string) (seen : bool) :
  Text.digits 0 seen (pretty_N_go x s) =
    if decide (x = 0%N) then Text.digits 0 seen s
    else Text.digits (Z.of_N x) true s.
Proof.
  revert s seen. induction (N.lt_wf_0 x) as [x _ IH]. intros s seen.
  destruct (decide (x = 0%N)) as [->|Hx]; [by rewrite pretty_N_go_0|].
  assert (Hpos : (0 < x)%N) by (by apply N.neq_0_lt_0).
  rewrite pretty_N_go_step by done.
  rewrite IH by (apply N.div_lt; [done | reflexivity]).
  destruct (pretty_N_char_digit (x `mod` 10)%N) as (Hd & Hv & _);
    [by apply N.mod_lt|].
  assert (Hx10 : Z.of_N x = 10 * Z.of_N (x `div` 10) + Z.of_N (x `mod` 10)).
  { rewrite (N.div_mod x 10) at 1 by done. lia. }
  destruct (decide ((x `div` 10)%N = 0%N)) as [Hz|Hz];
    simpl; rewrite Hd, Hv.
  - rewrite Hz in Hx10. f_equal. lia.
  - f_equal. lia.
Qed.

Lemma pretty_N_go_head (x : N) (s : string) :
  (0 < x)%N ->
  exists d rest, (d < 10)%N /\ pretty_N_go x s = String (pretty_N_char d) rest.
Proof.
  revert s. induction (N.lt_wf_0 x) as [x _ IH]. intros s Hx.
  rewrite pretty_N_go_step by done.
  destruct (decide ((x `div` 10)%N = 0%N)) as [Hz|Hz].
  - rewrite Hz, pretty_N_go_0. eexists _, s. split; [|done].
    by apply N.mod_lt.
  - apply IH; [apply N.div_lt; [done | reflexivity]|].
    by apply N.neq_0_lt_0.
Qed.

Lemma contains_pretty_N_go (x : N) (s : string) :
  contains "/" (pretty_N_go x s) = contains "/" s.
Proof.
  revert s. induction (N.lt_wf_0 x) as [x _ IH]. intros s.
  destruct (decide (x = 0%N)) as [->|Hx]; [by rewrite pretty_N_go_0|].
  assert (Hpos : (0 < x)%N) by (by apply N.neq_0_lt_0).
  rewrite pretty_N_go_step by done.
  rewrite IH by (apply N.div_lt; [done | reflexivity]).
  destruct (pretty_N_char_digit (x `mod` 10)%N) as (_ & _ & _ & Hs & _);
    [by apply N.mod_lt|].
  simpl. by rewrite bool_decide_eq_false_2.
Qed.

Lemma int_of_str_pretty_pos (p : positive) :
  Text.int_of_str (pretty (Zpos p)) = Some (Zpos p)
  /\ Text.digits 0 false (pretty (Npos p)) = Some (Zpos p).
Proof.
  assert (Hd : Text.digits 0 false (pretty (Npos p)) = Some (Zpos p)).
  { unfold pretty, pretty_N. rewrite decide_False by done.
    rewrite digits_pretty_N_go, decide_False by done. reflexivity. }
  split; [|exact Hd].
  change (pretty (Zpos p)) with (pretty (Npos p)).
  unfold pretty, pretty_N in *. rewrite decide_False in * by done.
  destruct (pretty_N_go_head (Npos p) "") as (d & rest & Hlt & Heq); [lia|].
  destruct (pretty_N_char_digit d Hlt) as (_ & _ & Hsp & _ & Hm & Hp).
  unfold Text.int_of_str. rewrite Heq in *. simpl Text.lstrip. rewrite Hsp.
  destruct (pretty_N_char d) as [[] [] [] [] [] [] [] []]; try exact Hd;
    congruence.
Qed.

(** [int] reads back every id that the formatting of a url writes. *)
Lemma int_of_str_pretty (z : Z) : Text.int_of_str (pretty z) = Some z.
Proof.
  destruct z as [|p|p].
  - reflexivity.
  - apply int_of_str_pretty_pos.
  - change (pretty (Zneg p)) with (String "-" (pretty (Npos p))).
    unfold Text.int_of_str. simpl Text.lstrip.
    destruct (int_of_str_pretty_pos p) as [_ ->]. reflexivity.
Qed.

Lemma contains_pretty (z : Z) : contains "/" (pretty z) = false.
Proof.
  assert (H : forall p, contains "/" (pretty (Npos p)) = false).
  { intros p. unfold pretty, pretty_N. rewrite decide_False by done.
    by rewrite contains_pretty_N_go. }
  destruct z as [|p|p]; [reflexivity | apply H |].
  change (pretty (Zneg p)) with (String "-" (pretty (Npos p))).
  simpl. apply H.
Qed.

(** ** Routing *)

Lemma split_nonempty (sep : ascii) (n : nat) (s : string) :
  Text.split sep n s <> [].
Proof.
  revert n. induction s as [|c s IH]; intros n; simpl; [done|].
  destruct n as [|m]; [done|]. case_bool_decide; [done|].
  specialize (IH (S m)). by destruct (Text.split sep (S m) s).
Qed.

Lemma split_no_sep (sep : ascii) (n : nat) (s : string) :
  contains sep s = false -> Text.split sep n s = [s].
Proof.
  revert n. induction s as [|c s IH]; intros n Hs; simpl in *; [done|].
  apply orb_false_iff in Hs as [Hc Hs]. apply bool_decide_eq_false in Hc.
  destruct n as [|m]; [done|].
  rewrite bool_decide_eq_false_2 by done. by rewrite IH.
Qed.

Lemma split_sep_length (sep : ascii) (m : nat) (s : string) :
  contains sep s = true -> (2 <= length (Text.split sep (S m) s))%nat.
Proof.
  induction s as [|c s IH]; simpl; [discriminate|]. intros Hs.
  case_bool_decide as Hc.
  - pose proof (split_nonempty sep m s).
    destruct (Text.split sep m s); [done | simpl; lia].
  - simpl in Hs. specialize (IH Hs).
    destruct (Text.split sep (S m) s); simpl in *; lia.
Qed.

Lemma startswith_users (p : string) :
  Text.startswith p "/users/" = true <-> exists rest, p = "/users/" ++ rest.
Proof.
  unfold Text.startswith. split.
  - intros H. apply prefix_correct in H. simpl String.length in H.
    do 7 (destruct p as [|? p]; [discriminate|];
          simpl in H; injection H as -> H).
    by exists p.
  - intros [rest ->]. apply prefix_correct. simpl.
    by destruct rest.
Qed.

(** X1: [get_user_id] yields an id text exactly for the paths that are
    [/users/] followed by one segment without a slash, and the id text is
    that segment (the empty segment included). *)
Theorem get_user_id_one_segment (r : request) (i : string) :
  get_user_id r = Some i <->
  path r = "/users/" ++ i /\ contains "/" i = false.
Proof.
  unfold get_user_id. split.
  - destruct (Text.startswith (path r) "/users/") eqn:Hs; [|discriminate].
    apply startswith_users in Hs as [rest ->].
    change (Text.split "/" 4 ("/users/" ++ rest))
      with ("" :: "users" :: Text.split "/" 2 rest).
    destruct (contains "/" rest) eqn:Hc.
    + pose proof (split_sep_length "/" 1 rest Hc) as Hlen.
      rewrite bool_decide_eq_false_2; [discriminate|]. simpl. lia.
    + rewrite (split_no_sep "/" 2 rest Hc). simpl. by intros [= ->].
  - intros [-> Hc].
    rewrite (proj2 (startswith_users ("/users/" ++ i))) by by exists i.
    change (Text.split "/" 4 ("/users/" ++ i))
      with ("" :: "users" :: Text.split "/" 2 i).
    by rewrite (split_no_sep "/" 2 i Hc).
Qed.

Lemma get_user_id_one_segment_witness :
  get_user_id (mkRequest PUT "/users/42" None None "") = Some "42"
  /\ (path (mkRequest GET "/users/4/2" None None "") = "/users/" ++ "4/2"
      /\ get_user_id (mkRequest GET "/users/4/2" None None "") <> Some "4/2").
Proof.
  split.
  - apply (get_user_id_one_segment (mkRequest PUT "/users/42" None None "") "42").
    split; reflexivity.
  - split; [reflexivity|]. intros H.
    apply (get_user_id_one_segment
             (mkRequest GET "/users/4/2" None None "") "4/2") in H
      as [_ H].
    discriminate.
Defined.

(** X2: a request that matches no route is answered 404 with the error
    [not found], and the controller is left as it was: a [GET] whose path
    is neither [/users/] nor [/users/] and one segment, a [POST] whose
    path is not [/users/], a [PUT] or [DELETE] whose path is not
    [/users/] and one segment. *)
Theorem unmatched_route_404 (json_loads : string -> option value)
    (r : request) (s : state) :
  match command r with
  | GET => path r <> "/users/" /\ get_user_id r = None
  | POST => path r <> "/users/"
  | PUT | DELETE => get_user_id r = None
  end ->
  handle json_loads r s = (s, mkResponse 404 (Some (JError (Text "not found")))).
Proof.
  unfold handle, do_GET, do_POST, do_PUT, do_DELETE.
  destruct (command r).
  - intros [Hp Hid]. rewrite bool_decide_eq_false_2, Hid by done. reflexivity.
  - intros Hp. rewrite bool_decide_eq_false_2 by done. reflexivity.
  - intros ->. reflexivity.
  - intros ->. reflexivity.
Qed.

Lemma unmatched_route_404_witness :
  handle (fun _ => None) (mkRequest POST "/users/7" None None "")
    UserController.init
  = (UserController.init, mkResponse 404 (Some (JError (Text "not found")))).
Proof.
  apply (unmatched_route_404 (fun _ => None)
           (mkRequest POST "/users/7" None None "") UserController.init).
  simpl. discriminate.
Defined.

(** ** How the operations fail *)

Lemma status_in_4 (e : exn) :
  (exists m, e = HTTPError 400 m) \/ (exists m, e = HTTPError 404 m)
  \/ (exists m, e = HTTPError 409 m) \/ (exists b, e = Builtin b) ->
  status_of e ∈ [400; 404; 409; 500].
Proof.
  intros [[m ->] | [[m ->] | [[m ->] | [b ->]]]]; simpl;
    repeat (apply elem_of_cons; (by left) || right).
Qed.

Lemma validate_raise (data : value) (e : exn) :
  UserSchema.validate data = Raise e ->
  (exists m, e = HTTPError 400 m) \/ (exists b, e = Builtin b).
Proof.
  intros H. destruct e as [code m | b]; [left | right; by exists b].
  apply validate_error in H as ->. by exists m.
Qed.

Lemma get_raise (i : string) (s s' : state) (e : exn) :
  UserController.get i s = (s', Raise e) ->
  s' = s /\ exists m, e = HTTPError 404 m.
Proof.
  rewrite get_unfold. intros H.
  repeat (case_match; simplify_eq/=; try done); split; by eauto.
Qed.

Lemma create_raise_cases (data : value) (s s' : state) (e : exn) :
  UserController.create data s = (s', Raise e) ->
  (UserSchema.validate data = Raise e /\ s' = s)
  \/ ((e = Builtin TypeError \/ e = HTTPError 409 (Text "Email is not unique"))
      /\ s' = UserController.set_last_id (last_id s + 1) s).
Proof.
  rewrite create_unfold. intros H.
  destruct (UserSchema.validate data) eqn:Hval; [|left; by simplify_eq].
  right. cbv zeta in H.
  destruct (match data with VDict d => UserM.init (last_id s) d
                       | _ => Raise (Builtin TypeError) end) as [u|e0] eqn:Hi.
  - rewrite update_email_unfold in H.
    repeat (case_match; simplify_eq/=; try done). by auto.
  - simplify_eq. split; [|done]. left.
    destruct data; try by simplify_eq. by apply init_error in Hi.
Qed.

Lemma update_raise_cases (i : string) (data : value) (s s' : state) (e : exn) :
  UserController.update i data s = (s', Raise e) ->
  (s' = s /\ ((UserController.get i s).2 = Raise e
              \/ UserSchema.validate data = Raise e
              \/ e = HTTPError 409 (Text "Email is not unique")))
  \/ (e = Builtin KeyError /\ users s' = users s /\ last_id s' = last_id s).
Proof.
  rewrite update_unfold, get_at_unfold, get_unfold. intros H.
  destruct (Text.int_of_str i) as [n|]; [|simplify_eq; left; by auto].
  destruct (users s !! n) as [u|]; [|simplify_eq; left; by auto].
  destruct (UserSchema.validate data) eqn:Hval;
    [|simplify_eq; left; by auto].
  cbv zeta in H. rewrite update_email_unfold in H.
  repeat (case_match; simplify_eq/=; try done); by auto.
Qed.

Lemma delete_raise_cases (i : string) (s s' : state) (e : exn) :
  UserController.delete i s = (s', Raise e) ->
  (s' = s /\ (UserController.get i s).2 = Raise e)
  \/ (e = Builtin KeyError /\ users s' = users s /\ last_id s' = last_id s).
Proof.
  rewrite delete_unfold, get_unfold. intros H.
  destruct (Text.int_of_str i) as [n|]; [|simplify_eq; left; by auto].
  destruct (users s !! n) as [u|]; [|simplify_eq; left; by auto].
  rewrite update_email_unfold in H.
  repeat (case_match; simplify_eq/=; try done); by auto.
Qed.

Lemma get_raise_404 (i : string) (s : state) (e : exn) :
  (UserController.get i s).2 = Raise e -> exists m, e = HTTPError 404 m.
Proof.
  intros H. destruct (UserController.get i s) as [s' r] eqn:Hg.
  simpl in H. subst r. by apply get_raise in Hg as [_ ?].
Qed.

Lemma returning_raise_inv {A} (f : A -> pyobj) (c : ctl A)
    (s s' : state) (e : exn) :
  returning f c s = (s', Raise e) -> c s = (s', Raise e).
Proof.
  rewrite returning_unfold. destruct (c s) as [s0 [a|e0]]; by intros [= -> ->].
Qed.

Lemma safely_get (i : string) :
  raises_safely (returning OUser (UserController.get i)).
Proof.
  intros s s' e H. apply returning_raise_inv, get_raise in H. solve_safely.
Qed.

Lemma safely_list : raises_safely (returning OList UserController.list).
Proof. intros s s' e H. rewrite returning_unfold, list_unfold in H. done. Qed.

Lemma safely_create (data : value) :
  raises_safely (returning OUserRef (UserController.create data)).
Proof.
  intros s s' e H. apply returning_raise_inv, create_raise_cases in H.
  destruct H as [[Hv ->] | [He ->]].
  - apply validate_raise in Hv. solve_safely.
  - solve_safely.
Qed.

Lemma safely_update (i : string) (data : value) :
  raises_safely (returning OUser (UserController.update i data)).
Proof.
  intros s s' e H. apply returning_raise_inv, update_raise_cases in H.
  destruct H as [[-> [Hg | [Hv | ->]]] | H].
  - apply get_raise_404 in Hg. solve_safely.
  - apply validate_raise in Hv. solve_safely.
  - solve_safely.
  - solve_safely.
Qed.

Lemma safely_delete (i : string) :
  raises_safely (returning (fun _ : unit => ONone) (UserController.delete i)).
Proof.
  intros s s' e H. apply returning_raise_inv, delete_raise_cases in H.
  destruct H as [[-> Hg] | H].
  - apply get_raise_404 in Hg. solve_safely.
  - solve_safely.
Qed.

Lemma safely_call_with_body (json_loads : string -> option value)
    (r : request) (handler : value -> ctl pyobj) :
  (forall data, raises_safely (handler data)) ->
  raises_safely (call_with_body json_loads r handler).
Proof.
  intros Hh s s' e H. unfold call_with_body in H.
  destruct (get_data json_loads r) as [data|e0].
  - by apply (Hh data).
  - injection H as <- <-. solve_safely.
Qed.

(** Every request goes to [not_found] or to [process_request] with
    status 200 or 201 and a handler that raises safely. *)
Lemma handle_shape (json_loads : string -> option value) (r : request) (s : state) :
  handle json_loads r s = (s, not_found)
  \/ exists st h, (st = 200 \/ st = 201) /\ raises_safely h
       /\ handle json_loads r s = process_request st h s.
Proof.
  unfold handle, do_GET, do_POST, do_PUT, do_DELETE.
  destruct (command r).
  - case_bool_decide.
    + right. eexists 200, _. split; [by left|]. split; [apply safely_list|done].
    + destruct (get_user_id r) as [i|]; [|by left].
      right. eexists 200, _. split; [by left|].
      split; [apply safely_get|done].
  - case_bool_decide; [|by left].
    right. eexists 201, _. split; [by right|]. split; [|done].
    apply safely_call_with_body. intros data. apply safely_create.
  - destruct (get_user_id r) as [i|]; [|by left].
    right. eexists 200, _. split; [by left|]. split; [|done].
    apply safely_call_with_body. intros data. apply safely_update.
  - destruct (get_user_id r) as [i|]; [|by left].
    right. eexists 200, _. split; [by left|].
    split; [apply safely_delete|done].
Qed.

Lemma process_request_cases (st : Z) (h : ctl pyobj) (s : state) :
  (exists s' data, h s = (s', Ok data)
     /\ process_request st h s = (s', write_response st data))
  \/ (exists s' e, h s = (s', Raise e)
     /\ process_request st h s =
          (s', mkResponse (status_of e) (Some (JError (str e))))).
Proof.
  destruct (h s) as [s' [data|e]] eqn:Hh.
  - left. exists s', data. split; [done|]. by apply process_request_returns.
  - right. exists s', e. split; [done|]. by apply process_request_raises.
Qed.

Lemma write_response_status (st : Z) (data : pyobj) :
  status (write_response st data) = st \/ status (write_response st data) = 204.
Proof. destruct data; simpl; auto. Qed.


(** X4: a request answered 400 or 404 leaves the controller exactly as
    it was, counter included; a request answered 409 leaves the users
    and the e-mail index as they were. *)
Theorem client_errors_change_nothing (json_loads : string -> option value)
    (r : request) (s : state) :
  (status (handle json_loads r s).2 = 400
   \/ status (handle json_loads r s).2 = 404 ->
   (handle json_loads r s).1 = s)
  /\ (status (handle json_loads r s).2 = 409 ->
      users (handle json_loads r s).1 = users s
      /\ emails (handle json_loads r s).1 = emails s).
Proof.
  destruct (handle_shape json_loads r s) as [-> | (st & h & Hst & Hsafe & ->)].
  - simpl. split; [done | discriminate].
  - destruct (process_request_cases st h s)
      as [(s' & data & _ & ->) | (s' & e & Hh & ->)]; simpl.
    + destruct (write_response_status st data) as [-> | ->];
        (split; [intros [?|?] | intros ?]); destruct Hst; lia.
    + destruct (Hsafe s s' e Hh) as (_ & H4 & H9). by split.
Qed.

Lemma client_errors_change_nothing_witness :
  let loads := fun _ : string => Some (VDict [("age", VInt 0)]) in
  let r := mkRequest POST "/users/" (Some "application/json") (Some "9") "{}" in
  let s := run [Create alice] UserController.init in
  status (handle loads r s).2 = 400 /\ (handle loads r s).1 = s.
Proof.
  intros loads r s. split; [reflexivity|].
  apply (client_errors_change_nothing loads r s). by left.
Defined.

(** ** Reading never writes *)

(** X5: a [GET] request, whatever its path and its outcome, leaves the
    controller as it was. *)
Theorem get_requests_change_nothing (json_loads : string -> option value)
    (r : request) (s : state) :
  command r = GET -> (handle json_loads r s).1 = s.
Proof.
  intros Hc. unfold handle, do_GET. rewrite Hc. case_bool_decide.
  - reflexivity.
  - destruct (get_user_id r) as [i|]; [|reflexivity].
    unfold process_request. rewrite returning_unfold.
    destruct (get_frame s i) as [Hs _].
    destruct (UserController.get i s) as [s' [u|[code m|b]]]; exact Hs.
Qed.

Lemma get_requests_change_nothing_witness :
  let s := run [Create alice; Create bob] UserController.init in
  (handle (fun _ => None) (mkRequest GET "/users/2" None None "") s).1 = s.
Proof.
  intros s.
  by apply (get_requests_change_nothing (fun _ => None)
              (mkRequest GET "/users/2" None None "") s).
Defined.

(** X6: when [get] fails for an id text, [update] and [delete] called
    with that id text fail with the same error and change nothing; the
    data of the update is not even validated. *)
Theorem update_delete_resolve_like_get (i : string) (data : value)
    (s : state) (e : exn) :
  (UserController.get i s).2 = Raise e ->
  UserController.update i data s = (s, Raise e)
  /\ UserController.delete i s = (s, Raise e).
Proof.
  rewrite update_unfold, delete_unfold, get_at_unfold, get_unfold.
  destruct (Text.int_of_str i) as [n|]; [|by intros [= <-]].
  destruct (users s !! n) as [u|]; [discriminate | by intros [= <-]].
Qed.

Lemma update_delete_resolve_like_get_witness :
  UserController.update "9" (VList []) UserController.init
    = (UserController.init,
       Raise (HTTPError 404 (Text "user(9) is not found")))
  /\ UserController.delete "9" UserController.init
    = (UserController.init,
       Raise (HTTPError 404 (Text "user(9) is not found"))).
Proof.
  by apply (update_delete_resolve_like_get "9" (VList []) UserController.init).
Defined.

(** ** Bodies that cannot be read *)

Lemma body_unreadable_raises (json_loads : string -> option value) (r : request) :
  body_unreadable json_loads r ->
  exists b, get_data json_loads r = Raise (Builtin b).
Proof.
  unfold body_unreadable, get_data. intros (ct & -> & -> & H). simpl.
  destruct (content_length r) as [cl|]; [|by eexists].
  destruct (Text.int_of_str cl) as [n|]; [|by eexists].
  rewrite H. by eexists.
Qed.

(** X7: a [POST /users/] or a [PUT] on a user path whose body is
    announced as JSON but cannot be read (length header absent or not a
    number, bytes that do not decode) is answered 400 with the message of
    the failure; the controller is not called and stays as it was, even
    when the addressed user does not exist. *)
Theorem unreadable_body_400 (json_loads : string -> option value)
    (r : request) (s : state) :
  takes_body r -> body_unreadable json_loads r ->
  exists b, handle json_loads r s = (s, mkResponse 400 (Some (JError (StrOf b)))).
Proof.
  intros Hroute Hbody.
  destruct (body_unreadable_raises json_loads r Hbody) as [b He].
  exists b. destruct Hroute as [[Hc Hp] | [Hc [i Hi]]].
  - unfold handle, do_POST. rewrite Hc, Hp.
    rewrite bool_decide_eq_true_2 by reflexivity.
    by erewrite process_request_raises
      by (apply call_with_body_wraps; exact He).
  - unfold handle, do_PUT. rewrite Hc, Hi.
    by erewrite process_request_raises
      by (apply call_with_body_wraps; exact He).
Qed.

Lemma unreadable_body_400_witness :
  let r := mkRequest PUT "/users/5" (Some "application/json") (Some "abc") "{}" in
  exists b, handle (fun _ => Some alice) r UserController.init
            = (UserController.init, mkResponse 400 (Some (JError (StrOf b)))).
Proof.
  intros r.
  apply (unreadable_body_400 (fun _ => Some alice) r UserController.init).
  - right. split; [reflexivity | by eexists].
  - exists "application/json". split; [reflexivity|]. split; [reflexivity|].
    exact I.
Defined.

(** ** Updates that name an e-mail *)

Lemma update_ok_inv (i : string) (data : value) (s s' : state) (u' : User) :
  UserController.update i data s = (s', Ok u') ->
  exists n u d, data = VDict d /\ Text.int_of_str i = Some n
    /\ users s !! n = Some u /\ UserSchema.validate data = Ok tt
    /\ u' = UserM.update u d
    /\ users s' = <[n := u']> (users s) /\ last_id s' = last_id s.
Proof.
  rewrite update_unfold, get_at_unfold. intros H.
  destruct (Text.int_of_str i) as [n|]; [|discriminate].
  destruct (users s !! n) as [u|] eqn:Hu; [|discriminate].
  destruct (UserSchema.validate data) as [[]|] eqn:Hval; [|discriminate].
  destruct data as [| | | | | |d]; try discriminate.
  cbv zeta in H.
  match type of H with
  | context [UserController.update_email ?a ?b ?c] =>
      pose proof (update_email_frame a b c) as [Hus Hl];
      destruct (UserController.update_email a b c) as [s1 [[]|]]
  end; [|discriminate].
  simpl in Hus, Hl. injection H as <- <-.
  exists n, u, d. simpl. rewrite Hus, Hl. by repeat split.
Qed.

(** X8: a [PUT] whose body names the e-mail the user already has is
    answered 200 with the updated user; the e-mail index, the counter and
    the other users stay as they were. *)
Theorem put_same_email_keeps_index (json_loads : string -> option value)
    (r : request) (s : state) (i : string) (n : Z) (u : User) (d : pydict) :
  command r = PUT -> get_user_id r = Some i ->
  get_data json_loads r = Ok (VDict d) ->
  Text.int_of_str i = Some n -> users s !! n = Some u ->
  UserSchema.validate (VDict d) = Ok tt ->
  dict_get "email" d = Some (email u) ->
  exists s',
    handle json_loads r s =
      (s', mkResponse 200 (Some (JValue (UserM.to_dict (UserM.update u d)))))
    /\ emails s' = emails s /\ last_id s' = last_id s
    /\ users s' = <[n := UserM.update u d]> (users s).
Proof.
  intros Hc Hid Hdata Hi Hu Hval He.
  exists (mkState (<[n := UserM.update u d]> (users s)) (last_id s) (emails s)).
  split; [|by repeat split].
  unfold handle, do_PUT. rewrite Hc, Hid.
  erewrite process_request_returns.
  2:{ unfold call_with_body. rewrite Hdata. apply returning_ok.
      by apply (update_same_email s i n u d). }
  reflexivity.
Qed.

Lemma put_same_email_keeps_index_witness :
  let s := run [Create alice] UserController.init in
  let d := [("email", VStr "a@x.com"); ("age", VInt 31)] in
  let r := mkRequest PUT "/users/1" (Some "application/json") (Some "2") "{}" in
  exists s',
    handle (fun _ => Some (VDict d)) r s =
      (s', mkResponse 200 (Some (JValue (UserM.to_dict (UserM.update user1 d)))))
    /\ emails s' = emails s /\ last_id s' = last_id s
    /\ users s' = <[1 := UserM.update user1 d]> (users s).
Proof.
  intros s d r.
  apply (put_same_email_keeps_index (fun _ => Some (VDict d)) r s "1" 1 user1 d);
    reflexivity.
Defined.

(** X9: a [PUT] whose body names an e-mail that differs from the user's
    own and is in the index is answered 409 with [Email is not unique],
    and nothing changes. *)
Theorem put_taken_email_409 (json_loads : string -> option value)
    (r : request) (s : state) (i : string) (n : Z) (u : User) (d : pydict)
    (e : value) :
  command r = PUT -> get_user_id r = Some i ->
  get_data json_loads r = Ok (VDict d) ->
  Text.int_of_str i = Some n -> users s !! n = Some u ->
  UserSchema.validate (VDict d) = Ok tt ->
  dict_get "email" d = Some e -> e <> email u -> e ∈ emails s ->
  handle json_loads r s =
    (s, mkResponse 409 (Some (JError (Text "Email is not unique")))).
Proof.
  intros Hc Hid Hdata Hi Hu Hval He Hne Hin.
  unfold handle, do_PUT. rewrite Hc, Hid.
  erewrite process_request_raises.
  2:{ unfold call_with_body. rewrite Hdata. apply returning_raise.
      by apply (update_new_email_conflict s i n u d e). }
  reflexivity.
Qed.

Lemma put_taken_email_409_witness :
  let s := run [Create alice; Create bob] UserController.init in
  let d := [("email", VStr "a@x.com")] in
  let r := mkRequest PUT "/users/2" (Some "application/json") (Some "2") "{}" in
  handle (fun _ => Some (VDict d)) r s =
    (s, mkResponse 409 (Some (JError (Text "Email is not unique")))).
Proof.
  intros s d r.
  apply (put_taken_email_409 (fun _ => Some (VDict d)) r s "2" 2
           (mkUser 2 (VStr "B") (VStr "b@x.com") (VInt 41) (VStr "female"))
           d (VStr "a@x.com")); try reflexivity.
  - discriminate.
  - vm_compute. apply elem_of_cons. by left.
Defined.

(** X10: in a state whose e-mail index is exact, an update that names
    an e-mail which differs from the user's own and is not in the index
    succeeds: the user gets the new e-mail, the index loses the old
    e-mail, gains the new one and keeps every other, and the index is
    exact again. *)
Theorem update_new_email_moves_index (s : state) (i : string) (n : Z)
    (u : User) (d : pydict) (e : value) :
  email_ok s -> NoDup (keys d) ->
  Text.int_of_str i = Some n -> users s !! n = Some u ->
  UserSchema.validate (VDict d) = Ok tt ->
  dict_get "email" d = Some e -> e <> email u -> e ∉ emails s ->
  exists s',
    UserController.update i (VDict d) s = (s', Ok (UserM.update u d))
    /\ users s' !! n = Some (UserM.update u d)
    /\ email (UserM.update u d) = e
    /\ (forall x, x ∈ emails s' <-> (x ∈ emails s /\ x <> email u) \/ x = e)
    /\ email_ok s'.
Proof.
  intros Hok Hnd Hi Hu Hval He Hne Hnin.
  pose proof Hok as (_ & Hex & _ & Htext).
  destruct (Htext n u Hu) as [t Ht].
  destruct (validated_email d e Hval He) as (t' & -> & _).
  assert (Hold : email u ∈ emails s) by (apply Hex; by exists n, u).
  destruct (update_fields u d Hnd) as (_ & _ & Hmail & _).
  rewrite He in Hmail. simpl in Hmail.
  eexists. split;
    [by apply (update_new_email_swap s i n u d (VStr t') t)|].
  simpl. split; [by rewrite lookup_insert_eq|]. split; [exact Hmail|]. split.
  - intros x. rewrite Ht, elem_of_discard_str, elem_of_app,
      list_elem_of_singleton.
    split.
    + intros [Hx [Hin | ->]]; [left | right]; done.
    + intros [[Hin Hx] | ->]; (split; [|by auto]); [done | congruence].
  - rewrite Ht. by apply (email_ok_insert_swap s n u _ t t').
Qed.

Lemma update_new_email_moves_index_witness :
  let s := run [Create alice] UserController.init in
  let d := [("email", VStr "z@x.com")] in
  exists s',
    UserController.update "1" (VDict d) s = (s', Ok (UserM.update user1 d))
    /\ users s' !! 1 = Some (UserM.update user1 d)
    /\ email (UserM.update user1 d) = VStr "z@x.com"
    /\ (forall x, x ∈ emails s' <->
          (x ∈ emails s /\ x <> email user1) \/ x = VStr "z@x.com")
    /\ email_ok s'.
Proof.
  intros s d.
  apply (update_new_email_moves_index s "1" 1 user1 d (VStr "z@x.com")).
  - apply (step_email_ok (Create alice) UserController.init); [done | apply init_ids_wf |].
    split; [apply NoDup_nil_2|]. split; [|split].
    + intros e. simpl. split; [intros He; by apply elem_of_nil in He|].
      intros (i & u & Hi & _). by rewrite lookup_empty in Hi.
    + intros i j u w Hi. simpl in Hi. by rewrite lookup_empty in Hi.
    + intros i u Hi. simpl in Hi. by rewrite lookup_empty in Hi.
  - vm_compute. apply NoDup_singleton.
  - reflexivity.
  - vm_compute. reflexivity.
  - reflexivity.
  - reflexivity.
  - discriminate.
  - vm_compute. intros H. apply elem_of_cons in H as [H|H]; [discriminate|].
    by apply elem_of_nil in H.
Defined.

(** X11: a successful update overwrites on the addressed user exactly
    the fields its dictionary supplies and keeps the others and the id;
    the user is stored under the key it had, every other user is
    untouched and the counter does not move. *)
Theorem update_overwrites_supplied_fields (s s' : state) (i : string)
    (d : pydict) (u' : User) :
  NoDup (keys d) ->
  UserController.update i (VDict d) s = (s', Ok u') ->
  exists n u,
    Text.int_of_str i = Some n /\ users s !! n = Some u
    /\ users s' !! n = Some u'
    /\ id u' = id u
    /\ name u' = default (name u) (dict_get "name" d)
    /\ email u' = default (email u) (dict_get "email" d)
    /\ age u' = default (age u) (dict_get "age" d)
    /\ sex u' = default (sex u) (dict_get "sex" d)
    /\ (forall j, j <> n -> users s' !! j = users s !! j)
    /\ last_id s' = last_id s.
Proof.
  intros Hnd H.
  apply update_ok_inv in H as (n & u & d0 & [= <-] & Hi & Hu & _ & -> & Hus & Hl).
  destruct (update_fields u d Hnd) as (H1 & H2 & H3 & H4 & H5).
  exists n, u. rewrite Hus, lookup_insert_eq.
  repeat (split; [done|]). split; [|done].
  intros j Hj. by rewrite lookup_insert_ne.
Qed.

Lemma update_overwrites_supplied_fields_witness :
  let s := run [Create alice; Create bob] UserController.init in
  let d := [("age", VInt 31); ("name", VStr "Al")] in
  exists s' u', UserController.update "1" (VDict d) s = (s', Ok u')
    /\ u' = mkUser 1 (VStr "Al") (VStr "a@x.com") (VInt 31) (VStr "male")
    /\ users s' !! 2 = users s !! 2.
Proof.
  intros s d.
  exists (UserController.update "1" (VDict d) s).1,
         (mkUser 1 (VStr "Al") (VStr "a@x.com") (VInt 31) (VStr "male")).
  assert (Hup : UserController.update "1" (VDict d) s =
                ((UserController.update "1" (VDict d) s).1,
                 Ok (mkUser 1 (VStr "Al") (VStr "a@x.com") (VInt 31) (VStr "male"))))
    by (vm_compute; reflexivity).
  split; [exact Hup|]. split; [reflexivity|].
  assert (Hnd : NoDup (keys d)).
  { vm_compute. repeat constructor; intros H;
      repeat (apply elem_of_cons in H as [H|H]; [discriminate|]);
      by apply elem_of_nil in H. }
  destruct (update_overwrites_supplied_fields s _ "1" d _ Hnd Hup)
    as (n & u & Hn & _ & _ & _ & _ & _ & _ & _ & Hframe & _).
  injection Hn as <-. by apply Hframe.
Defined.

(** ** Invariants of the stored users *)

Lemma init_email_ok : email_ok UserController.init.
Proof.
  split; [apply NoDup_nil_2|]. split; [|split].
  - intros e. simpl. split; [intros He; by apply elem_of_nil in He|].
    intros (i & u & Hi & _). by rewrite lookup_empty in Hi.
  - intros i j u w Hi. simpl in Hi. by rewrite lookup_empty in Hi.
  - intros i u Hi. simpl in Hi. by rewrite lookup_empty in Hi.
Qed.

(** X12: from any state in which every user sits under its id below
    the counter and the e-mail index is exact, every run of operations
    whose updates all supply an e-mail ends in such a state again: the
    index holds exactly the e-mails of the stored users, without
    duplicates, and no two users share an e-mail. *)
Theorem email_index_exact_along_runs (ops : list op) (s : state) :
  ids_wf s -> email_ok s -> Forall supplies_email ops ->
  ids_wf (run ops s)
  /\ NoDup (emails (run ops s))
  /\ index_exact (run ops s)
  /\ emails_unique (run ops s).
Proof.
  intros Hwf Hok Hops. revert s Hwf Hok.
  induction Hops as [|o ops Ho _ IH]; intros s Hwf Hok.
  - destruct Hok as (Hnd & Hex & Huniq & _).
    split; [exact Hwf|]. split; [exact Hnd|]. split; [exact Hex | exact Huniq].
  - rewrite run_cons. apply IH; [by apply step_ids_wf|].
    by apply step_email_ok.
Qed.

Lemma email_index_exact_along_runs_witness :
  let ops := [Create alice; Create bob;
              Update "2" (VDict [("email", VStr "c@x.com"); ("age", VInt 42)]);
              Delete "1"; Create carol] in
  NoDup (emails (run ops UserController.init))
  /\ index_exact (run ops UserController.init)
  /\ emails_unique (run ops UserController.init).
Proof.
  intros ops.
  assert (Hops : Forall supplies_email ops).
  { constructor; [exact I|]. constructor; [exact I|]. constructor.
    - split.
      + apply NoDup_cons. split; [|apply NoDup_singleton].
        intros H. apply list_elem_of_singleton in H. discriminate.
      + apply elem_of_cons. by left.
    - constructor; [exact I|]. constructor; [exact I | constructor]. }
  destruct (email_index_exact_along_runs ops UserController.init
              init_ids_wf init_email_ok Hops) as (_ & Hnd & Hex & Huniq).
  split; [exact Hnd|]. split; [exact Hex | exact Huniq].
Defined.

Lemma field_ok_name (v : value) :
  field_ok "name" v <-> exists t, v = VStr t /\ t <> "".
Proof.
  unfold field_ok. split.
  - intros [[? _] | [[_ H] | [? _]]]; done.
  - intros H. right. left. split; [by left | done].
Qed.

Lemma field_ok_email (v : value) :
  field_ok "email" v <-> exists t, v = VStr t /\ t <> "".
Proof.
  unfold field_ok. split.
  - intros [[? _] | [[_ H] | [? _]]]; done.
  - intros H. right. left. split; [by right | done].
Qed.

Lemma field_ok_age (v : value) :
  field_ok "age" v <-> (exists z, v = VInt z /\ 0 < z < 100) \/ v = VBool true.
Proof.
  unfold field_ok. split.
  - intros [[_ H] | [[[?|?] _] | [? _]]]; done.
  - intros H. by left.
Qed.

Lemma field_ok_sex (v : value) :
  field_ok "sex" v <-> v = VStr "male" \/ v = VStr "female".
Proof.
  unfold field_ok. split.
  - intros [[? _] | [[[?|?] _] | [_ H]]]; done.
  - intros H. right. by right.
Qed.

Lemma setattr_valid (u : User) (k : string) (v : value) :
  user_valid u -> field_ok k v -> user_valid (UserM.setattr u k v).
Proof.
  intros (Hn & He & Ha & Hs) Hk. unfold UserM.setattr.
  repeat case_bool_decide; subst; by repeat split.
Qed.

Lemma update_valid (d : pydict) (u : User) :
  user_valid u -> (forall k v, (k, v) ∈ d -> field_ok k v) ->
  user_valid (UserM.update u d).
Proof.
  revert u. induction d as [|[k v] d IH]; intros u Hu Hd; [exact Hu|].
  rewrite update_cons. apply IH.
  - apply setattr_valid; [exact Hu|]. apply Hd, elem_of_cons. by left.
  - intros k' v' Hin. apply Hd, elem_of_cons. by right.
Qed.

Lemma init_valid (id_ : Z) (d : pydict) (u : User) :
  UserM.init id_ d = Ok u -> (forall k v, (k, v) ∈ d -> field_ok k v) ->
  user_valid u.
Proof.
  unfold UserM.init. intros H Hd.
  assert (Hget : forall k v,
            dict_get k (filter (fun kv => kv.1 <> "id_") d) = Some v ->
            field_ok k v).
  { intros k v Hk. apply dict_get_elem, list_elem_of_filter in Hk as [_ Hk].
    by apply Hd. }
  destruct (dict_get "name" _) as [vn|] eqn:Hn; [|discriminate].
  destruct (dict_get "email" _) as [ve|] eqn:He; [|discriminate].
  destruct (dict_get "age" _) as [va|] eqn:Ha; [|discriminate].
  destruct (dict_get "sex" _) as [vs|] eqn:Hs; [|discriminate].
  case_bool_decide; [|discriminate]. injection H as <-.
  repeat split; simpl; by apply Hget.
Qed.

Lemma create_ok_user (data : value) (s s' : state) (ref : UserRef) :
  UserController.create data s = (s', Ok ref) ->
  exists d u, data = VDict d /\ UserSchema.validate data = Ok tt
    /\ UserM.init (last_id s) d = Ok u /\ ref = UserRefM.init u
    /\ users s' = <[last_id s := u]> (users s)
    /\ last_id s' = last_id s + 1.
Proof.
  rewrite create_unfold. intros H.
  destruct (UserSchema.validate data) as [[]|] eqn:Hval; [|discriminate].
  cbv zeta in H.
  destruct data as [| | | | | |d]; try discriminate.
  destruct (UserM.init (last_id s) d) as [u|] eqn:Hinit; [|discriminate].
  pose proof (update_email_frame (email u) VNone
                (UserController.set_last_id (last_id s + 1) s)) as [Hu Hl].
  destruct (UserController.update_email _ _ _) as [s2 [[]|]];
    [|discriminate].
  simpl in Hu, Hl. injection H as <- <-.
  exists d, u. simpl. rewrite Hu, Hl. by repeat split.
Qed.

Lemma step_valid (o : op) (s : state) :
  (forall i u, users s !! i = Some u -> user_valid u) ->
  forall i u, users (step o s).1 !! i = Some u -> user_valid u.
Proof.
  intros Hs i u.
  destruct o as [data|j data|j|j|]; unfold step; rewrite returning_unfold.
  - destruct (UserController.create data s) as [s' [ref|e]] eqn:H; simpl.
    + apply create_ok_user in H as (d & w & -> & Hval & Hinit & _ & -> & _).
      simpl in Hval. rewrite validate_items_ok in Hval.
      destruct (decide (last_id s = i)) as [->|Hne].
      * rewrite lookup_insert_eq. intros [= <-]. by eapply init_valid.
      * rewrite lookup_insert_ne by done. apply Hs.
    + apply create_raise in H as [-> _]. apply Hs.
  - destruct (UserController.update j data s) as [s' [w|e]] eqn:H; simpl.
    + apply update_ok_inv in H as (n & w0 & d & -> & _ & Hw0 & Hval & -> & -> & _).
      simpl in Hval. rewrite validate_items_ok in Hval.
      destruct (decide (n = i)) as [->|Hne].
      * rewrite lookup_insert_eq. intros [= <-].
        apply update_valid; [by apply (Hs i)|done].
      * rewrite lookup_insert_ne by done. apply Hs.
    + apply update_raise_cases in H as [[-> _] | (_ & -> & _)]; apply Hs.
  - destruct (UserController.delete j s) as [s' r] eqn:H.
    apply delete_effect in H as [_ [Hu | [k Hu]]].
    + destruct r; simpl; rewrite Hu; apply Hs.
    + destruct r; simpl; rewrite Hu; intros Hi;
        apply lookup_delete_Some in Hi as [_ Hi]; by apply (Hs i).
  - destruct (get_frame s j) as [Hg _].
    destruct (UserController.get j s) as [s' [w|e]]; simpl in *; subst;
      apply Hs.
  - apply Hs.
Qed.

Lemma run_valid (ops : list op) (s : state) :
  (forall i u, users s !! i = Some u -> user_valid u) ->
  forall i u, users (run ops s) !! i = Some u -> user_valid u.
Proof.
  revert s. induction ops as [|o ops IH]; intros s Hs; [exact Hs|].
  rewrite run_cons. apply IH. by apply step_valid.
Qed.

(** X13: whatever operations have run since the controller was set up,
    every stored user has passed the schema: its name and its e-mail are
    non-empty texts, its age is an integer with 0 < age < 100 or the
    boolean true, its sex is the text male or female, and its id is the
    key it is stored under. *)
Theorem stored_users_pass_schema (ops : list op) (i : Z) (u : User) :
  users (run ops UserController.init) !! i = Some u ->
  id u = i
  /\ (exists t, name u = VStr t /\ t <> "")
  /\ (exists t, email u = VStr t /\ t <> "")
  /\ ((exists z, age u = VInt z /\ 0 < z < 100) \/ age u = VBool true)
  /\ (sex u = VStr "male" \/ sex u = VStr "female").
Proof.
  intros Hi.
  destruct (run_ids_wf ops _ init_ids_wf) as [_ Hwf].
  split; [by apply (Hwf i u)|].
  destruct (run_valid ops UserController.init) with (i := i) (u := u)
    as (Hn & He & Ha & Hs); [|exact Hi|].
  - intros j w Hj. simpl in Hj. by rewrite lookup_empty in Hj.
  - apply field_ok_name in Hn. apply field_ok_email in He.
    apply field_ok_age in Ha. apply field_ok_sex in Hs. done.
Qed.

Lemma stored_users_pass_schema_witness :
  let ops := [Create alice; Update "1" rename_to_B; Create bob] in
  id user1_renamed = 1
  /\ (exists t, name user1_renamed = VStr t /\ t <> "")
  /\ (exists t, email user1_renamed = VStr t /\ t <> "")
  /\ ((exists z, age user1_renamed = VInt z /\ 0 < z < 100)
      \/ age user1_renamed = VBool true)
  /\ (sex user1_renamed = VStr "male" \/ sex user1_renamed = VStr "female").
Proof.
  intros ops. apply (stored_users_pass_schema ops 1 user1_renamed).
  vm_compute. reflexivity.
Defined.

(** ** Deleting *)

Lemma delete_ok_inv (i : string) (s s' : state) :
  UserController.delete i s = (s', Ok tt) ->
  exists n u, Text.int_of_str i = Some n /\ users s !! n = Some u
    /\ users s' = base.delete (id u) (users s) /\ last_id s' = last_id s.
Proof.
  rewrite delete_unfold, get_unfold. intros H.
  destruct (Text.int_of_str i) as [n|]; [|discriminate].
  destruct (users s !! n) as [u|] eqn:Hu; [|discriminate].
  pose proof (update_email_frame VNone (email u) s) as [Hus Hl].
  destruct (UserController.update_email _ _ _) as [s1 [[]|]];
    [|discriminate].
  simpl in Hus, Hl.
  destruct (users s1 !! id u); [|discriminate]. injection H as <-.
  exists n, u. simpl. rewrite Hus, Hl. by repeat split.
Qed.

Lemma delete_stored (s : state) (i : string) (n : Z) (u : User) (t : string) :
  Text.int_of_str i = Some n -> users s !! n = Some u -> id u = n ->
  email u = VStr t -> VStr t ∈ emails s ->
  UserController.delete i s =
    (mkState (base.delete n (users s)) (last_id s)
       (UserController.discard (VStr t) (emails s)), Ok tt).
Proof.
  intros Hi Hu Hid Ht Hin. rewrite delete_unfold, get_unfold, Hi, Hu.
  rewrite update_email_unfold, Ht. simpl value_eqb. cbv iota.
  simpl negb. cbv iota. rewrite (proj2 (mem_str t (emails s)) Hin).
  simpl users. by rewrite Hid, Hu.
Qed.

(** X14: in a state where users sit under their ids and the index is
    exact, deleting a stored user succeeds; the user is gone, its e-mail
    has left the index while every other e-mail stays, the counter does
    not move, a [get] of the same id now fails with 404, and the index is
    exact again. *)
Theorem delete_removes_user_and_email (s : state) (i : string) (n : Z) (u : User) :
  ids_wf s -> email_ok s ->
  Text.int_of_str i = Some n -> users s !! n = Some u ->
  exists s',
    UserController.delete i s = (s', Ok tt)
    /\ users s' = base.delete n (users s)
    /\ (forall x, x ∈ emails s' <-> x ∈ emails s /\ x <> email u)
    /\ last_id s' = last_id s
    /\ (exists m, UserController.get i s' = (s', Raise (HTTPError 404 m)))
    /\ email_ok s'.
Proof.
  intros [_ Hwf] Hok Hi Hu.
  pose proof Hok as (_ & Hex & _ & Htext).
  destruct (Htext n u Hu) as [t Ht]. destruct (Hwf n u Hu) as [Hid _].
  assert (Hin : VStr t ∈ emails s).
  { rewrite <- Ht. apply Hex. by exists n, u. }
  eexists. split; [by apply (delete_stored s i n u t)|]. simpl.
  split; [done|]. split; [|split; [done|split]].
  - intros x. rewrite Ht, elem_of_discard_str. tauto.
  - rewrite get_unfold, Hi. simpl. rewrite lookup_delete_eq. by eexists.
  - by apply (email_ok_delete s n u t).
Qed.

Lemma delete_removes_user_and_email_witness :
  let s := run [Create alice; Create bob] UserController.init in
  exists s',
    UserController.delete "1" s = (s', Ok tt)
    /\ users s' = base.delete 1 (users s)
    /\ (forall x, x ∈ emails s' <-> x ∈ emails s /\ x <> email user1)
    /\ last_id s' = last_id s
    /\ (exists m, UserController.get "1" s' = (s', Raise (HTTPError 404 m)))
    /\ email_ok s'.
Proof.
  intros s.
  apply (delete_removes_user_and_email s "1" 1 user1).
  - apply run_ids_wf, init_ids_wf.
  - apply (step_email_ok (Create bob)); [exact I | |].
    + apply (step_ids_wf (Create alice)), init_ids_wf.
    + apply (step_email_ok (Create alice));
        [exact I | apply init_ids_wf | apply init_email_ok].
  - reflexivity.
  - vm_compute. reflexivity.
Defined.

(** ** The outcomes of [create] *)

Lemma field_ok_required (k : string) (v : value) :
  field_ok k v -> k ∈ required.
Proof.
  unfold required.
  intros [[-> _] | [[[-> | ->] _] | [-> _]]];
    repeat (apply elem_of_cons; (by left) || right).
Qed.

Lemma filter_all {A} (P : A -> Prop) `{forall x, Decision (P x)} (l : list A) :
  Forall P l -> filter P l = l.
Proof.
  induction 1 as [|x l Hx _ IH]; [reflexivity|].
  by rewrite filter_cons_True, IH.
Qed.

Lemma keys_complete_length (d : pydict) :
  NoDup (keys d) -> (forall k, k ∈ keys d <-> k ∈ required) ->
  length d = 4%nat.
Proof.
  intros Hnd Hkeys.
  assert (Hperm : keys d ≡ₚ required).
  { apply NoDup_Permutation; [exact Hnd | | exact Hkeys].
    unfold required. repeat (apply NoDup_cons; split;
      [intros H; repeat (apply elem_of_cons in H as [H|H]; [discriminate|]);
       by apply elem_of_nil in H|]).
    apply NoDup_nil_2. }
  apply Permutation_length in Hperm. unfold keys in Hperm.
  by rewrite length_fmap in Hperm.
Qed.

Lemma dict_get_key (k : string) (v : value) (d : pydict) :
  dict_get k d = Some v -> k ∈ keys d.
Proof.
  intros H. apply dict_get_elem in H. unfold keys.
  apply list_elem_of_fmap. by exists (k, v).
Qed.

Lemma init_complete (id_ : Z) (d : pydict) (vn ve va vs : value) :
  NoDup (keys d) -> UserSchema.validate (VDict d) = Ok tt ->
  dict_get "name" d = Some vn -> dict_get "email" d = Some ve ->
  dict_get "age" d = Some va -> dict_get "sex" d = Some vs ->
  UserM.init id_ d = Ok (mkUser id_ vn ve va vs).
Proof.
  intros Hnd Hval Hn He Ha Hs. simpl in Hval.
  rewrite validate_items_ok in Hval.
  assert (Hreq : forall k, k ∈ keys d <-> k ∈ required).
  { intros k. split.
    - unfold keys. intros Hk.
      apply list_elem_of_fmap in Hk as ([k' v] & -> & Hin).
      by apply (field_ok_required k' v), Hval.
    - unfold required. intros Hk.
      repeat (apply elem_of_cons in Hk as [-> | Hk];
              [by eapply dict_get_key|]).
      by apply elem_of_nil in Hk. }
  assert (Hf : filter (fun kv : string * value => kv.1 <> "id_") d = d).
  { apply filter_all, Forall_forall. intros [k v] Hin. simpl. intros ->.
    apply Hval, field_ok_required in Hin. unfold required in Hin.
    repeat (apply elem_of_cons in Hin as [Hin|Hin]; [discriminate|]).
    by apply elem_of_nil in Hin. }
  unfold UserM.init. rewrite Hf, Hn, He, Ha, Hs.
  by rewrite (keys_complete_length d Hnd Hreq), bool_decide_eq_true_2.
Qed.

(** X15: [create] with a dictionary that passes validation and supplies
    all four fields has two outcomes. If the e-mail is in the index, it
    raises 409 and only the counter has advanced. Otherwise it stores,
    under the counter's value, the user made of that id and the four
    supplied values, appends the e-mail to the index, advances the
    counter and returns the reference with that id, the name and the url
    [/users/] followed by the id in decimal. *)
Theorem create_outcomes (s : state) (d : pydict) (vn ve va vs : value) :
  NoDup (keys d) -> UserSchema.validate (VDict d) = Ok tt ->
  dict_get "name" d = Some vn -> dict_get "email" d = Some ve ->
  dict_get "age" d = Some va -> dict_get "sex" d = Some vs ->
  (ve ∈ emails s ->
   UserController.create (VDict d) s =
     (mkState (users s) (last_id s + 1) (emails s),
      Raise (HTTPError 409 (Text "Email is not unique"))))
  /\ (ve ∉ emails s ->
      UserController.create (VDict d) s =
        (mkState (<[last_id s := mkUser (last_id s) vn ve va vs]> (users s))
           (last_id s + 1) (emails s ++ [ve]),
         Ok (mkUserRef (last_id s) vn ("/users/" ++ pretty (last_id s))))).
Proof.
  intros Hnd Hval Hn He Ha Hs.
  destruct (validated_email d ve Hval He) as (t & -> & _).
  rewrite create_unfold, Hval. cbv zeta.
  rewrite (init_complete (last_id s) d vn (VStr t) va vs) by done.
  rewrite update_email_unfold. simpl.
  split; intros Hin.
  - by rewrite (proj2 (mem_str t (emails s)) Hin).
  - assert (Hm : UserController.mem (VStr t) (emails s) = false).
    { apply not_true_is_false. intros H. by apply mem_str in H. }
    unfold UserController.add. rewrite Hm.
    unfold UserController.set_emails, UserController.set_users,
      UserController.set_last_id. simpl. by rewrite Hm.
Qed.

Lemma create_outcomes_witness :
  let s := run [Create alice] UserController.init in
  UserController.create alice s =
    (mkState (users s) 3 (emails s),
     Raise (HTTPError 409 (Text "Email is not unique")))
  /\ UserController.create bob s =
    (mkState (<[2 := mkUser 2 (VStr "B") (VStr "b@x.com") (VInt 41) (VStr "female")]>
                (users s)) 3 (emails s ++ [VStr "b@x.com"]),
     Ok (mkUserRef 2 (VStr "B") "/users/2")).
Proof.
  intros s.
  assert (Hnd : forall a b c e : value,
            NoDup (keys [("name", a); ("email", b); ("age", c); ("sex", e)])).
  { intros. vm_compute.
    repeat (apply NoDup_cons; split;
      [intros H; repeat (apply elem_of_cons in H as [H|H]; [discriminate|]);
       by apply elem_of_nil in H|]).
    apply NoDup_nil_2. }
  split.
  - destruct (create_outcomes s alice_items (VStr "A") (VStr "a@x.com")
                (VInt 30) (VStr "male")) as [Hconflict _];
      [apply Hnd | reflexivity..|].
    apply Hconflict. vm_compute. apply elem_of_cons. by left.
  - destruct (create_outcomes s
                [("name", VStr "B"); ("email", VStr "b@x.com");
                 ("age", VInt 41); ("sex", VStr "female")]
                (VStr "B") (VStr "b@x.com") (VInt 41) (VStr "female"))
      as [_ Hfresh]; [apply Hnd | reflexivity..|].
    apply Hfresh. vm_compute. intros H.
    apply elem_of_cons in H as [H|H]; [discriminate|].
    by apply elem_of_nil in H.
Defined.

(** ** The returned reference *)

Lemma get_user_id_segment (r : request) (i : string) :
  path r = "/users/" ++ i -> contains "/" i = false -> get_user_id r = Some i.
Proof.
  intros Hp Hc. unfold get_user_id. rewrite Hp.
  rewrite (proj2 (startswith_users ("/users/" ++ i))) by by exists i.
  change (Text.split "/" 4 ("/users/" ++ i))
    with ("" :: "users" :: Text.split "/" 2 i).
  by rewrite (split_no_sep "/" 2 i Hc).
Qed.

Lemma pretty_not_empty (z : Z) : pretty z <> "".
Proof.
  intros H. pose proof (int_of_str_pretty z) as Hz. rewrite H in Hz.
  discriminate.
Qed.

(** X16: the url of the reference that a successful [create] returns
    leads back to the created user: a [GET] on that url, right after the
    creation, is answered 200 with the document of the user stored under
    the returned id, and that user has the returned name. *)
Theorem created_url_routes_back (json_loads : string -> option value)
    (data : value) (s s' : state) (ref : UserRef) (r : request) :
  UserController.create data s = (s', Ok ref) ->
  command r = GET -> path r = ref_url ref ->
  exists u,
    users s' !! ref_id ref = Some u
    /\ id u = ref_id ref /\ name u = ref_name ref
    /\ handle json_loads r s' =
         (s', mkResponse 200 (Some (JValue (UserM.to_dict u)))).
Proof.
  intros Hcreate Hc Hp.
  apply create_ok in Hcreate as (u & -> & Hid & _ & Hus).
  simpl in *. exists u.
  assert (Hu : users s' !! id u = Some u)
    by (by rewrite Hus, Hid, lookup_insert_eq).
  split; [exact Hu|]. split; [done|]. split; [done|].
  unfold handle, do_GET. rewrite Hc.
  rewrite bool_decide_eq_false_2.
  2:{ rewrite Hp. intros H. apply (pretty_not_empty (id u)).
      change ("/users/" +:+ pretty (id u) = "/users/" +:+ "") in H.
      by apply String.app_inj in H. }
  rewrite (get_user_id_segment r (pretty (id u)) Hp (contains_pretty _)).
  erewrite process_request_returns.
  2:{ apply returning_ok. rewrite get_unfold, int_of_str_pretty, Hu.
      reflexivity. }
  reflexivity.
Qed.

Lemma created_url_routes_back_witness :
  let s := run [Create alice] UserController.init in
  let s' := (UserController.create bob s).1 in
  exists u,
    users s' !! 2 = Some u /\ id u = 2 /\ name u = VStr "B"
    /\ handle (fun _ => None) (mkRequest GET "/users/2" None None "") s' =
         (s', mkResponse 200 (Some (JValue (UserM.to_dict u)))).
Proof.
  intros s s'.
  apply (created_url_routes_back (fun _ => None) bob s s'
           (mkUserRef 2 (VStr "B") "/users/2")
           (mkRequest GET "/users/2" None None ""));
    [vm_compute; reflexivity | reflexivity | reflexivity].
Defined.

Lemma discard_fresh (t : string) (l : list value) :
  VStr t ∉ l -> UserController.discard (VStr t) (l ++ [VStr t]) = l.
Proof.
  intros Hfresh. unfold UserController.discard. rewrite filter_app.
  rewrite (filter_cons_False _ (VStr t) []), filter_nil, app_nil_r.
  - apply filter_all, Forall_forall. intros x Hx.
    apply value_eqb_str_ne. by intros ->.
  - rewrite (proj2 (value_eqb_str_l t (VStr t)) eq_refl). discriminate.
Qed.

(** X17: in a state where users sit under their ids below the counter,
    deleting the user that a successful [create] has just returned
    succeeds and brings back the users and the e-mail index of before
    the creation; only the counter stays advanced. *)
Theorem delete_undoes_create (data : value) (s s' : state) (ref : UserRef) :
  ids_wf s ->
  UserController.create data s = (s', Ok ref) ->
  exists s'',
    UserController.delete (pretty (ref_id ref)) s' = (s'', Ok tt)
    /\ users s'' = users s /\ emails s'' = emails s
    /\ last_id s'' = last_id s + 1.
Proof.
  intros [_ Hwf] Hcreate.
  pose proof (create_ok _ _ _ _ Hcreate) as (u & -> & Hid & _ & Hus).
  apply create_ok_email in Hcreate as (w & t & Hw & Hfresh & ->).
  simpl in Hus.
  assert (w = u) as ->.
  { apply (f_equal (fun m => m !! last_id s)) in Hus.
    rewrite !lookup_insert_eq in Hus. congruence. }
  assert (Hnone : users s !! last_id s = None).
  { destruct (users s !! last_id s) as [x|] eqn:Hx; [|done].
    apply Hwf in Hx. lia. }
  eexists. split.
  - apply (delete_stored _ _ (last_id s) u t); simpl.
    + rewrite Hid. apply int_of_str_pretty.
    + by rewrite lookup_insert_eq.
    + exact Hid.
    + exact Hw.
    + apply elem_of_app. right. by apply list_elem_of_singleton.
  - simpl. split; [by rewrite delete_insert_eq, delete_id|].
    split; [by apply discard_fresh | done].
Qed.

Lemma delete_undoes_create_witness :
  let s := run [Create alice] UserController.init in
  let s' := (UserController.create bob s).1 in
  exists s'',
    UserController.delete "2" s' = (s'', Ok tt)
    /\ users s'' = users s /\ emails s'' = emails s /\ last_id s'' = 3.
Proof.
  intros s s'.
  apply (delete_undoes_create bob s s' (mkUserRef 2 (VStr "B") "/users/2")).
  - apply run_ids_wf, init_ids_wf.
  - vm_compute. reflexivity.
Defined.

(** ** Validation and the order of the fields *)

(** X18: whether validation succeeds does not depend on the order in
    which the dictionary hands out its entries; and when it fails on a
    dictionary with ASCII field names, it fails with a 400 in every
    order. *)
Theorem validate_order_irrelevant (d d' : pydict) :
  d ≡ₚ d' ->
  (UserSchema.validate (VDict d) = Ok tt <->
   UserSchema.validate (VDict d') = Ok tt)
  /\ ((forall k, k ∈ keys d -> Text.is_ascii k = true) ->
      forall e, UserSchema.validate (VDict d) = Raise e ->
      exists m m', e = HTTPError 400 m
        /\ UserSchema.validate (VDict d') = Raise (HTTPError 400 m')).
Proof.
  intros Hperm.
  assert (Hiff : UserSchema.validate (VDict d) = Ok tt <->
                 UserSchema.validate (VDict d') = Ok tt).
  { simpl. rewrite !validate_items_ok.
    by setoid_rewrite Hperm. }
  split; [exact Hiff|].
  intros Hascii e He.
  destruct (validate_items_raises_400 d e Hascii He) as [m ->].
  destruct (UserSchema.validate (VDict d')) as [[]|e'] eqn:He'.
  - rewrite (proj2 Hiff eq_refl) in He. discriminate.
  - destruct (validate_items_raises_400 d' e') as [m' ->]; [|exact He'|by eauto].
    intros k Hk. apply Hascii. unfold keys in *. by rewrite Hperm.
Qed.

Lemma validate_order_irrelevant_witness :
  (UserSchema.validate
     (VDict [("sex", VStr "male"); ("age", VInt 30);
             ("email", VStr "a@x.com"); ("name", VStr "A")]) = Ok tt)
  /\ exists m m',
       UserSchema.validate (VDict [("age", VInt 0); ("nick", VStr "x")])
         = Raise (HTTPError 400 m)
       /\ UserSchema.validate (VDict [("nick", VStr "x"); ("age", VInt 0)])
         = Raise (HTTPError 400 m').
Proof.
  split.
  - apply (validate_order_irrelevant alice_items
             [("sex", VStr "male"); ("age", VInt 30);
              ("email", VStr "a@x.com"); ("name", VStr "A")]);
      [|reflexivity].
    apply NoDup_Permutation.
    + apply NoDup_fmap_1 with (f := fst). vm_compute.
      repeat (apply NoDup_cons; split;
        [intros H; repeat (apply elem_of_cons in H as [H|H]; [discriminate|]);
         by apply elem_of_nil in H|]).
      apply NoDup_nil_2.
    + apply NoDup_fmap_1 with (f := fst). vm_compute.
      repeat (apply NoDup_cons; split;
        [intros H; repeat (apply elem_of_cons in H as [H|H]; [discriminate|]);
         by apply elem_of_nil in H|]).
      apply NoDup_nil_2.
    + intros x. unfold alice_items. rewrite !elem_of_cons, !elem_of_nil. tauto.
  - destruct (validate_order_irrelevant
                [("age", VInt 0); ("nick", VStr "x")]
                [("nick", VStr "x"); ("age", VInt 0)]) as [_ H400].
    + apply perm_swap.
    + destruct (H400) with (e := HTTPError 400 (Text "age does has wrong value"))
        as (m & m' & Hm & Hm').
      * intros k Hk. unfold keys in Hk. simpl in Hk.
        repeat (apply elem_of_cons in Hk as [-> | Hk]; [reflexivity|]).
        by apply elem_of_nil in Hk.
      * reflexivity.
      * exists m, m'. split; [|exact Hm']. rewrite <- Hm. reflexivity.
Defined.

(** ** Operations touch one user *)

(** X19: in a state where users sit under their ids below the counter,
    an operation leaves every stored user it does not address as it is:
    [create], [get] and [list] leave all of them, and [update] and
    [delete] all but the one whose id their id text denotes. *)
Theorem others_untouched (o : op) (s : state) (j : Z) (w : User) :
  ids_wf s -> users s !! j = Some w -> target o <> Some j ->
  users (step o s).1 !! j = Some w.
Proof.
  intros [_ Hwf] Hj Ht.
  destruct o as [data|i data|i|i|]; unfold step; rewrite returning_unfold.
  - destruct (UserController.create data s) as [s' [ref|e]] eqn:H; simpl.
    + apply create_ok in H as (u & _ & _ & _ & ->).
      rewrite lookup_insert_ne; [done|]. apply Hwf in Hj. lia.
    + by apply create_raise in H as [-> _].
  - destruct (UserController.update i data s) as [s' [u|e]] eqn:H; simpl.
    + apply update_ok_inv in H as (n & u0 & d & _ & Hi & _ & _ & _ & -> & _).
      rewrite lookup_insert_ne; [done|]. simpl in Ht. congruence.
    + by apply update_raise_cases in H as [[-> _] | (_ & -> & _)].
  - destruct (UserController.delete i s) as [s' [[]|e]] eqn:H; simpl.
    + apply delete_ok_inv in H as (n & u & Hi & Hu & -> & _).
      destruct (Hwf n u Hu) as [-> _].
      rewrite lookup_delete_ne; [done|]. simpl in Ht. congruence.
    + by apply delete_raise_cases in H as [[-> _] | (_ & -> & _)].
  - destruct (get_frame s i) as [Hs _].
    destruct (UserController.get i s) as [s' [u|e]]; simpl in *; by subst.
  - exact Hj.
Qed.

Lemma others_untouched_witness :
  let s := run [Create alice; Create bob] UserController.init in
  users (step (Delete "2") s).1 !! 1 = Some user1
  /\ users (step (Update "2" rename_to_B) s).1 !! 1 = Some user1.
Proof.
  intros s. split.
  - apply (others_untouched (Delete "2") s 1 user1).
    + apply run_ids_wf, init_ids_wf.
    + vm_compute. reflexivity.
    + discriminate.
  - apply (others_untouched (Update "2" rename_to_B) s 1 user1).
    + apply run_ids_wf, init_ids_wf.
    + vm_compute. reflexivity.
    + discriminate.
Defined.

(** ** Listing after a change *)

(** The listing runs through any strictly ascending arrangement of the
    keys: there is only one. *)
Lemma list_along (s : state) (ks : list Z) :
  StronglySorted Z.lt ks -> ks ≡ₚ (map_to_list (users s)).*1 ->
  UserController.list s = (s, Ok (omap (fun k => users s !! k) ks)).
Proof.
  intros Hsorted Hperm. rewrite list_unfold.
  destruct (list_keys s) as (Hperm' & Hsorted' & _).
  do 3 f_equal. apply (StronglySorted_unique_strong Z.lt); try done.
  - intros x1 x2 _ _ H1 H2. lia.
  - by rewrite Hperm.
Qed.

Lemma sorted_snoc_lt (ks : list Z) (k : Z) :
  StronglySorted Z.lt ks -> Forall (fun x => x < k) ks ->
  StronglySorted Z.lt (ks ++ [k])%list.
Proof.
  induction 1 as [|x ks Hs IH Hall]; intros Hk; simpl.
  - repeat constructor.
  - apply Forall_cons in Hk as [Hx Hk]. constructor; [by apply IH|].
    apply Forall_app. split; [exact Hall|]. by repeat constructor.
Qed.

Lemma omap_lookup_insert_fresh (m : gmap Z User) (n : Z) (u : User)
    (ks : list Z) :
  Forall (fun k => k <> n) ks ->
  omap (fun k => <[n := u]> m !! k) ks = omap (fun k => m !! k) ks.
Proof.
  induction 1 as [|k ks Hk _ IH]; [reflexivity|].
  csimpl. by rewrite lookup_insert_ne, IH.
Qed.

(** X20: in a state where users sit under their ids below the counter,
    the listing after a successful [create] is the listing of before
    followed by the new user. *)
Theorem list_after_create (data : value) (s s' : state) (ref : UserRef) :
  ids_wf s ->
  UserController.create data s = (s', Ok ref) ->
  exists l u,
    UserController.list s = (s, Ok l)
    /\ users s' !! ref_id ref = Some u
    /\ UserController.list s' = (s', Ok (l ++ [u])%list).
Proof.
  intros [_ Hwf] Hcreate.
  apply create_ok in Hcreate as (u & -> & Hid & _ & Hus). simpl.
  destruct (list_keys s) as (Hperm & Hsorted & Hsome).
  set (ks := merge_sort Z.le (map_to_list (users s)).*1) in *.
  assert (Hnone : users s !! last_id s = None).
  { destruct (users s !! last_id s) as [x|] eqn:Hx; [|done].
    apply Hwf in Hx. lia. }
  exists (omap (fun k => users s !! k) ks), u.
  split; [apply list_unfold|].
  split; [by rewrite Hus, Hid, lookup_insert_eq|].
  rewrite (list_along s' (ks ++ [last_id s])%list).
  - do 2 f_equal. rewrite Hus, omap_app. simpl.
    rewrite lookup_insert_eq. f_equal.
    apply omap_lookup_insert_fresh.
    eapply Forall_impl; [exact Hsome|]. intros k [w Hw] ->. congruence.
  - apply sorted_snoc_lt; [exact Hsorted|].
    eapply Forall_impl; [exact Hsome|]. intros k [w Hw]. apply Hwf in Hw. lia.
  - rewrite Hus, map_to_list_insert by done. simpl.
    rewrite <- Hperm. by rewrite Permutation_app_comm.
Qed.

Lemma list_after_create_witness :
  let s := run [Create alice] UserController.init in
  let s' := (UserController.create bob s).1 in
  exists l u,
    UserController.list s = (s, Ok l)
    /\ users s' !! 2 = Some u
    /\ UserController.list s' = (s', Ok (l ++ [u])%list).
Proof.
  intros s s'.
  apply (list_after_create bob s s' (mkUserRef 2 (VStr "B") "/users/2")).
  - apply run_ids_wf, init_ids_wf.
  - vm_compute. reflexivity.
Defined.

Lemma omap_lookup_delete (m : gmap Z User) (n : Z) (ks : list Z) :
  (forall k u, m !! k = Some u -> id u = k) ->
  omap (fun k => base.delete n m !! k) (filter (fun k => k <> n) ks)
  = filter (fun u => id u <> n) (omap (fun k => m !! k) ks).
Proof.
  intros Hid. induction ks as [|k ks IH]; [reflexivity|].
  destruct (decide (k = n)) as [->|Hne].
  - rewrite filter_cons_False by (by intros ?). csimpl.
    destruct (m !! n) as [u|] eqn:Hu; [|exact IH].
    rewrite filter_cons_False; [exact IH|].
    intros H. apply H. by apply Hid.
  - rewrite filter_cons_True by done. csimpl.
    rewrite lookup_delete_ne by done.
    destruct (m !! k) as [u|] eqn:Hu; [|exact IH].
    rewrite filter_cons_True; [by rewrite IH|].
    by rewrite (Hid k u Hu).
Qed.

Lemma sorted_filter_lt (P : Z -> Prop) `{forall x, Decision (P x)} (ks : list Z) :
  StronglySorted Z.lt ks -> StronglySorted Z.lt (filter P ks).
Proof.
  induction 1 as [|k ks Hs IH Hall]; [constructor|].
  destruct (decide (P k)).
  - rewrite filter_cons_True by done. constructor; [exact IH|].
    apply Forall_forall. intros x Hx. apply list_elem_of_filter in Hx as [_ Hx].
    rewrite Forall_forall in Hall. by apply Hall.
  - by rewrite filter_cons_False.
Qed.

(** X21: in a state where users sit under their ids below the counter,
    the listing after a successful [delete] is the listing of before
    without the user of the deleted id, in the same order. *)
Theorem list_after_delete (i : string) (s s' : state) :
  ids_wf s ->
  UserController.delete i s = (s', Ok tt) ->
  exists l n,
    Text.int_of_str i = Some n
    /\ UserController.list s = (s, Ok l)
    /\ UserController.list s' = (s', Ok (filter (fun u => id u <> n) l)).
Proof.
  intros [_ Hwf] Hdel.
  apply delete_ok_inv in Hdel as (n & u & Hi & Hu & Hus & _).
  destruct (Hwf n u Hu) as [Hid _]. rewrite Hid in Hus.
  destruct (list_keys s) as (Hperm & Hsorted & _).
  set (ks := merge_sort Z.le (map_to_list (users s)).*1) in *.
  exists (omap (fun k => users s !! k) ks), n.
  split; [exact Hi|]. split; [apply list_unfold|].
  rewrite (list_along s' (filter (fun k => k <> n) ks)).
  - do 2 f_equal. rewrite Hus. apply omap_lookup_delete.
    intros k w Hk. by apply (Hwf k w).
  - by apply sorted_filter_lt.
  - rewrite Hus, Hperm, <- (map_to_list_delete (users s) n u Hu).
    csimpl. rewrite filter_cons_False by (by intros ?).
    rewrite filter_all; [done|].
    apply Forall_forall. intros k Hk Hkn. subst k.
    apply list_elem_of_fmap in Hk as ([k' w] & Hk' & Hin). simpl in Hk'.
    subst k'. apply elem_of_map_to_list in Hin.
    by rewrite lookup_delete_eq in Hin.
Qed.

Lemma list_after_delete_witness :
  let s := run [Create alice; Create bob; Create carol] UserController.init in
  let s' := (UserController.delete "2" s).1 in
  exists l n,
    Text.int_of_str "2" = Some n
    /\ UserController.list s = (s, Ok l)
    /\ UserController.list s' = (s', Ok (filter (fun u => id u <> n) l)).
Proof.
  intros s s'.
  apply (list_after_delete "2" s s').
  - apply run_ids_wf, init_ids_wf.
  - vm_compute. reflexivity.
Defined.
